(** * XHS-Downloader API server: request orchestration and bootstrap

    A shallow embedding of [api_server.py]: the module-level configuration
    fallback, the [startup_event] directory bootstrap and the
    [download_content] handler of [POST /download].

    Python's effects are written out: a computation threads a state (the
    observable trace of calls, and for the bootstrap also the filesystem)
    and either returns a value or raises an exception.  The collaborators
    whose code lives outside this file (the [XHS] extractor, the
    configuration providers, the clock) are parameters of the model. *)

From stdpp Require Import gmap strings list pretty.

Open Scope string_scope.

(** ** Python exceptions *)

(** The exception classes the program raises, catches or lets through.
    [OtherException] stands for any further subclass of [Exception],
    [OtherBaseException] for one that derives from [BaseException] only. *)
Inductive ExnClass :=
| ImportError
| ModuleNotFoundError
| HTTPException (status_code : Z)
| KeyError
| TypeError
| UnboundLocalError
| OSError
| FileExistsError
| FileNotFoundError
| NotADirectoryError
| PermissionError
| OtherException (name : string)
| CancelledError
| KeyboardInterrupt
| OtherBaseException (name : string).

(** An exception value: its class and [str(e)]. *)
Record Exn := mkExn { exn_class : ExnClass; exn_str : string }.

(** [isinstance(e, Exception)]: everything but the [BaseException]-only
    classes ([asyncio.CancelledError] is one since Python 3.8). *)
Definition is_Exception (e : Exn) : bool :=
  match exn_class e with
  | CancelledError | KeyboardInterrupt | OtherBaseException _ => false
  | _ => true
  end.

(** [isinstance(e, ImportError)]. *)
Definition is_ImportError (e : Exn) : bool :=
  match exn_class e with
  | ImportError | ModuleNotFoundError => true
  | _ => false
  end.

(** [isinstance(e, HTTPException)]. *)
Definition is_HTTPException (e : Exn) : bool :=
  match exn_class e with
  | HTTPException _ => true
  | _ => false
  end.

(** [isinstance(e, OSError)]. *)
Definition is_OSError (e : Exn) : bool :=
  match exn_class e with
  | OSError | FileExistsError | FileNotFoundError
  | NotADirectoryError | PermissionError => true
  | _ => false
  end.

(** ** Python values *)

#[warnings="-register-all"]
Inductive PyVal :=
| PNone
| PBool (b : bool)
| PInt (z : Z)
| PStr (s : string)
| PList (l : list PyVal)
| PDict (d : list (string * PyVal)).

(** A [dict] with string keys, in insertion order. *)
Abbreviation PyDict := (list (string * PyVal)).

(** [bool(v)]. *)
Definition truthy (v : PyVal) : bool :=
  match v with
  | PNone => false
  | PBool b => b
  | PInt z => negb (z =? 0)%Z
  | PStr s => negb (String.eqb s "")
  | PList l => match l with [] => false | _ => true end
  | PDict d => match d with [] => false | _ => true end
  end.

(** [d.get(k)] on an insertion-ordered dict. *)
Fixpoint dict_get (d : PyDict) (k : string) : option PyVal :=
  match d with
  | [] => None
  | (k', v) :: d' => if String.eqb k' k then Some v else dict_get d' k
  end.

(** ** Computations: state, and a value or an exception *)

Inductive Outcome (A : Type) :=
| Return (a : A)
| Raise (e : Exn).
Arguments Return {A} a.
Arguments Raise {A} e.

Section Monad.
Context {S : Type}.

Definition M (A : Type) : Type := S -> S * Outcome A.

Definition ret {A} (a : A) : M A := fun s => (s, Return a).

Definition raise {A} (e : Exn) : M A := fun s => (s, Raise e).

Definition bind {A B} (m : M A) (k : A -> M B) : M B :=
  fun s =>
    match m s with
    | (s', Return a) => k a s'
    | (s', Raise e) => (s', Raise e)
    end.

(** [try: body / except C1 [as e]: h1 / except C2 [as e]: h2 ...]: the
    first clause whose class test accepts the exception handles it; an
    exception no clause accepts goes on to the caller. *)
Fixpoint dispatch {A} (clauses : list ((Exn -> bool) * (Exn -> M A)))
         (e : Exn) : M A :=
  match clauses with
  | [] => raise e
  | (accepts, handler) :: rest =>
      if accepts e then handler e else dispatch rest e
  end.

Definition try_except {A} (body : M A)
           (clauses : list ((Exn -> bool) * (Exn -> M A))) : M A :=
  fun s =>
    match body s with
    | (s', Return a) => (s', Return a)
    | (s', Raise e) => dispatch clauses e s'
    end.

(** [async with mgr: block].  [__aenter__] runs first, and if it raises
    the block and [__aexit__] do not run.  Otherwise [__aexit__] runs once
    when the block is left, with the pending exception if there is one;
    a true result of [__aexit__] swallows that exception, and then the
    names the block would have bound stay unbound ([None] here). *)
Definition async_with {A} (aenter : M unit)
           (aexit : option Exn -> M bool) (block : M A) : M (option A) :=
  bind aenter (fun _ s =>
    match block s with
    | (s', Return a) => bind (aexit None) (fun _ => ret (Some a)) s'
    | (s', Raise e) =>
        bind (aexit (Some e))
             (fun swallow => if swallow then ret None else raise e) s'
    end).
End Monad.

Arguments M : clear implicits.

Notation "x <- m ;; k" := (bind m (fun x => k))
  (at level 100, m at next level, right associativity).
Notation "m ;; k" := (bind m (fun _ => k))
  (at level 100, right associativity).

(** Whether a byte continues a UTF-8 sequence (its two top bits are 10). *)
Definition is_continuation_byte (a : Ascii.ascii) : bool :=
  match a with
  | Ascii.Ascii _ _ _ _ _ _ b6 b7 => b7 && negb b6
  end.

(** [len(s)] of a [str], its number of characters.  A string here holds
    the UTF-8 bytes of the Python string, so each byte that does not
    continue a sequence starts one character. *)
Fixpoint str_len (s : string) : nat :=
  match s with
  | EmptyString => 0
  | String a s' => (if is_continuation_byte a then 0 else 1) + str_len s'
  end.

(** [len(v)]: defined on sequences and dicts, [TypeError] otherwise. *)
Definition py_len {S} (v : PyVal) : M S Z :=
  match v with
  | PStr s => ret (Z.of_nat (str_len s))
  | PList l => ret (Z.of_nat (length l))
  | PDict d => ret (Z.of_nat (length d))
  | PNone => raise (mkExn TypeError "object of type 'NoneType' has no len()")
  | PBool _ => raise (mkExn TypeError "object of type 'bool' has no len()")
  | PInt _ => raise (mkExn TypeError "object of type 'int' has no len()")
  end.

(** ** Paths *)

(** A [pathlib.Path] as its components below the filesystem root. *)
Abbreviation Path := (list string).

(** [p / name]. *)
Definition path_div (p : Path) (name : string) : Path := p ++ [name].

(** [p.parent]. *)
Definition path_parent (p : Path) : Path := removelast p.

(** [str(p)] for an absolute POSIX path. *)
Definition path_str (p : Path) : string :=
  match p with
  | [] => "/"
  | _ => fold_right (fun c acc => "/" +:+ c +:+ acc) "" p
  end.

(** ** The download endpoint *)

(** [class DownloadRequest(BaseModel)]: the parsed request body. *)
Record DownloadRequest := mkDownloadRequest {
  url : string;
  save_path : option string;
  quality : option string;
  cookie : option string;
  proxy : option string;
  image_download : option bool;
  video_download : option bool;
  live_download : option bool
}.

(** The request pydantic builds when the body holds [url] alone: every
    other field takes its declared default. *)
Definition DownloadRequest_defaults (u : string) : DownloadRequest :=
  {| url := u;
     save_path := None;
     quality := Some "high";
     cookie := Some "";
     proxy := None;
     image_download := Some false;
     video_download := Some true;
     live_download := Some false |}.

(** [class DownloadResponse(BaseModel)]. *)
Record DownloadResponse := mkDownloadResponse {
  success : bool;
  message : string;
  data : option PyDict
}.

(** The extractor [source.application.XHS], seen from its caller. *)
Module XHS.
(** The keyword arguments of [XHS(...)]. *)
Record kwargs := mk_kwargs {
  work_path : string;
  folder_name : string;
  name_format : string;
  user_agent : option string;
  cookie : option string;
  proxy : option string;
  timeout : Z;
  max_retry : Z;
  record_data : bool;
  image_format : string;
  image_download : option bool;
  video_download : option bool;
  live_download : option bool;
  folder_mode : bool;
  download_record : bool;
  author_archive : bool;
  write_mtime : bool;
  language : string
}.

(** What the class does when called: each operation either completes or
    raises.  [extract] returns a Python value (a list of records, or
    something falsy); [__aexit__] is handed the pending exception and
    returns whether to swallow it. *)
Record behaviour := mk_behaviour {
  init : kwargs -> option Exn;
  aenter : kwargs -> option Exn;
  extract : kwargs -> string -> bool -> option Z -> Outcome PyVal;
  aexit : kwargs -> option Exn -> Outcome bool
}.
End XHS.

(** What a request can observe of the process around it. *)
Record Env := mkEnv {
  (** [Path(__file__).parent] *)
  project_root : Path;
  (** [from source.application import XHS]: [None] when the module loads *)
  import_XHS : option Exn;
  xhs : XHS.behaviour;
  (** [datetime.now().isoformat()], by the number of calls made so far *)
  clock : nat -> string;
  (** [traceback.format_exc()] for the exception being handled *)
  format_exc : Exn -> string
}.

(** The two configuration providers, [config.production_config] and
    [config.simple_config]. *)
Inductive Profile := Production | Simple.

(** The calls the program makes on its surroundings, in the order it makes
    them: log lines, the extractor's operations, and at import time the
    configuration providers' functions and [print]. *)
Inductive Event :=
| LogInfo (msg : string)
| LogError (msg : string)
| EvPrint (msg : string)
| EvImportConfig (p : Profile)
| EvSetupEnvironment (p : Profile)
| EvGetConfig (p : Profile)
| EvGetEnvironmentInfo (p : Profile)
| EvImportXHS
| EvInit (args : XHS.kwargs)
| EvEnter
| EvExtract (u : string) (download : bool) (index : option Z)
| EvExit (pending : option Exn)
| EvNow.

Abbreviation Trace := (list Event).

(** Record a call. *)
Definition emit (ev : Event) : M Trace unit :=
  fun tr => ((tr ++ [ev])%list, Return tt).

Definition logger_info (msg : string) : M Trace unit := emit (LogInfo msg).
Definition logger_error (msg : string) : M Trace unit := emit (LogError msg).

(** Lift a collaborator's answer into the computation. *)
Definition completes (r : option Exn) : M Trace unit :=
  match r with
  | None => ret tt
  | Some e => raise e
  end.

Definition yields {A} (r : Outcome A) : M Trace A :=
  match r with
  | Return a => ret a
  | Raise e => raise e
  end.

Section Handler.
Variable w : Env.

(** [client_info['client_id']] *)
Definition client_id_of (client_info : gmap string string) : M Trace string :=
  match client_info !! "client_id" with
  | Some cid => ret cid
  | None => raise (mkExn KeyError "'client_id'")
  end.

(** [datetime.now().isoformat()] *)
Definition datetime_now_isoformat : M Trace string :=
  fun tr => ((tr ++ [EvNow])%list, Return (clock w (length tr))).

(** The keyword arguments the handler passes to [XHS(...)]. *)
Definition xhs_kwargs (request : DownloadRequest) : XHS.kwargs :=
  {| XHS.work_path := path_str (path_div (project_root w) "downloads");
     XHS.folder_name := "APIDownload";
     XHS.name_format := "API_作品标题";
     XHS.user_agent := None;
     XHS.cookie := match cookie request with
                   | Some c => if String.eqb c "" then None else Some c
                   | None => None
                   end;
     XHS.proxy := match proxy request with
                  | Some p => if String.eqb p "" then None else Some p
                  | None => None
                  end;
     XHS.timeout := 30;
     XHS.max_retry := 3;
     XHS.record_data := true;
     XHS.image_format := "PNG";
     XHS.image_download := image_download request;
     XHS.video_download := video_download request;
     XHS.live_download := live_download request;
     XHS.folder_mode := true;
     XHS.download_record := true;
     XHS.author_archive := false;
     XHS.write_mtime := false;
     XHS.language := "zh_CN" |}.

(** [xhs = XHS(...)] followed by
    [async with xhs: result = await xhs.extract(request.url, download=True, index=None)].
    The answer is [None] when [result] was left unbound. *)
Definition construct_and_extract (request : DownloadRequest) : M Trace (option PyVal) :=
  let args := xhs_kwargs request in
  emit (EvInit args) ;;
  completes (XHS.init (xhs w) args) ;;
  async_with
    (emit EvEnter ;; completes (XHS.aenter (xhs w) args))
    (fun pending =>
       emit (EvExit pending) ;; yields (XHS.aexit (xhs w) args pending))
    (emit (EvExtract (url request) true None) ;;
     yields (XHS.extract (xhs w) args (url request) true None)).

(** The statements after the [async with] block. *)
Definition map_result (request : DownloadRequest) (bound : option PyVal)
  : M Trace DownloadResponse :=
  match bound with
  | None =>
      raise (mkExn UnboundLocalError
        "cannot access local variable 'result' where it is not associated with a value")
  | Some result =>
      if truthy result then
        n <- py_len result ;;
        now <- datetime_now_isoformat ;;
        let download_info : PyDict :=
          [ ("url", PStr (url request));
            ("status", PStr "completed");
            ("message", PStr "下载完成");
            ("result_count", PInt n);
            ("results", result);
            ("timestamp", PStr now) ] in
        ret (mkDownloadResponse true "下载成功完成" (Some download_info))
      else
        ret (mkDownloadResponse false "下载失败：未获取到内容" None)
  end.

(** The body of the outer [try]. *)
Definition download_body (request : DownloadRequest)
           (client_info : gmap string string) : M Trace DownloadResponse :=
  cid <- client_id_of client_info ;;
  logger_info ("下载请求: " +:+ url request +:+ " - 客户端: " +:+ cid) ;;
  loaded <-
    try_except
      (emit EvImportXHS ;; completes (import_XHS w) ;; ret None)
      [ (is_ImportError, fun e =>
           logger_error ("无法导入XHS类: " +:+ exn_str e) ;;
           ret (Some (mkDownloadResponse false "系统错误：无法加载下载模块" None))) ] ;;
  match loaded with
  | Some early => ret early
  | None =>
      bound <- construct_and_extract request ;;
      map_result request bound
  end.

(** [async def download_content(request, client_info)]. *)
Definition download_content (request : DownloadRequest)
           (client_info : gmap string string) : M Trace DownloadResponse :=
  try_except (download_body request client_info)
    [ (is_HTTPException, fun e => raise e);
      (is_Exception, fun e =>
         logger_error ("下载请求处理失败: " +:+ exn_str e) ;;
         logger_error ("错误堆栈: " +:+ format_exc w e) ;;
         ret (mkDownloadResponse false ("下载失败: " +:+ exn_str e) None)) ].
End Handler.

(** How the framework answers the client: a returned model is a 200
    response, a raised [HTTPException] carries its own status, and any other
    exception that leaves the handler is a 500. *)
Definition http_status {A} (o : Outcome A) : Z :=
  match o with
  | Return _ => 200
  | Raise e =>
      match exn_class e with
      | HTTPException status_code => status_code
      | _ => 500
      end
  end.

(** ** Configuration resolution and application set-up (module level) *)

(** The configuration object: the attributes the program reads. *)
Record ApiConfig := mkApiConfig {
  rate_limit_enabled : bool;
  rate_limit_requests : Z;
  rate_limit_window : Z
}.

Module Config.
(** One provider module, by what each of its steps does: the [from ...
    import ...] statement, [setup_*_environment()], [get_*_config()] and
    [get_*_auth().get_environment_info()]. *)
Record provider := mk_provider {
  import_module : option Exn;
  setup_environment : option Exn;
  get_config : Outcome ApiConfig;
  get_environment_info : Outcome PyDict
}.
End Config.

(** What the module body can observe of the process. *)
Record Host := mkHost {
  production_config : Config.provider;
  simple_config : Config.provider;
  (** [os.getenv] *)
  getenv : string -> option string;
  (** [str(v)], as an f-string formats a value *)
  py_str : PyVal -> string
}.

(** [d[k]] *)
Definition getitem (d : PyDict) (k : string) : M Trace PyVal :=
  match dict_get d k with
  | Some v => ret v
  | None => raise (mkExn KeyError ("'" +:+ k +:+ "'"))
  end.

(** The statements of one branch of the configuration [try]. *)
Definition load_config (p : Profile) (c : Config.provider) (banner : string)
  : M Trace (ApiConfig * PyDict) :=
  emit (EvImportConfig p) ;;
  completes (Config.import_module c) ;;
  emit (EvSetupEnvironment p) ;;
  completes (Config.setup_environment c) ;;
  emit (EvGetConfig p) ;;
  api_config <- yields (Config.get_config c) ;;
  emit (EvGetEnvironmentInfo p) ;;
  env_config <- yields (Config.get_environment_info c) ;;
  emit (EvPrint banner) ;;
  ret (api_config, env_config).

(** [try: <production> except ImportError: <simple>]; the result is the
    pair [(api_config, env_config)] the rest of the module reads. *)
Definition resolve_config (h : Host) : M Trace (ApiConfig * PyDict) :=
  try_except
    (load_config Production (production_config h) "✅ 使用生产环境配置")
    [ (is_ImportError, fun _ =>
         load_config Simple (simple_config h) "⚠️ 使用简单环境配置") ].

Inductive Middleware :=
| CORSMiddleware (allow_origins : list string) (allow_credentials : bool)
                 (allow_methods allow_headers : list string)
| APIAuthMiddleware.

(** The [FastAPI] application object. *)
Record App := mkApp {
  title : string;
  version : string;
  docs_url : option string;
  redoc_url : option string;
  root_path : string;
  middleware : list Middleware
}.

(** [os.getenv("API_ROOT_PATH", "")], with a leading slash added when a
    non-empty value lacks one. *)
Definition api_root_path (h : Host) : string :=
  let v := default "" (getenv h "API_ROOT_PATH") in
  if negb (String.eqb v "") && negb (String.prefix "/" v) then "/" +:+ v else v.

(** The module's globals once its body has run. *)
Record Globals := mkGlobals {
  api_config : ApiConfig;
  env_config : PyDict;
  app : App
}.

(** The module body from the configuration [try] to the last
    [add_middleware]. *)
Definition module_body (h : Host) : M Trace Globals :=
  cfg <- resolve_config h ;;
  let root := api_root_path h in
  docs_debug <- getitem (snd cfg) "debug" ;;
  redoc_debug <- getitem (snd cfg) "debug" ;;
  let fastapi :=
    {| title := "XHS Downloader API";
       version := "1.0.0";
       docs_url := if truthy docs_debug then Some (root +:+ "/docs") else None;
       redoc_url := if truthy redoc_debug then Some (root +:+ "/redoc") else None;
       root_path := root;
       middleware := [] |} in
  let with_cors :=
    {| title := title fastapi; version := version fastapi;
       docs_url := docs_url fastapi; redoc_url := redoc_url fastapi;
       root_path := root_path fastapi;
       middleware := CORSMiddleware ["*"] true ["*"] ["*"] :: middleware fastapi |} in
  let with_auth :=
    {| title := title with_cors; version := version with_cors;
       docs_url := docs_url with_cors; redoc_url := redoc_url with_cors;
       root_path := root_path with_cors;
       middleware := APIAuthMiddleware :: middleware with_cors |} in
  ret {| api_config := fst cfg; env_config := snd cfg; app := with_auth |}.

(** ** The start-up hook and the filesystem *)

Inductive Node := File | Dir.

(** Why the system refuses to create a directory that does not exist yet. *)
Inductive Refusal := EACCES | EROFS | ENOSPC.

(** The process state of the start-up hook: the filesystem (what exists at
    each path, and where creation is refused) and the log. *)
Record System := mkSystem {
  nodes : gmap Path Node;
  refusals : gmap Path Refusal;
  log : Trace
}.

(** Run a logging computation on the log of the system. *)
Definition on_log {A} (m : M Trace A) : M System A :=
  fun s =>
    match m (log s) with
    | (tr, o) => ({| nodes := nodes s; refusals := refusals s; log := tr |}, o)
    end.

(** The characters [repr] treats specially. *)
Definition apostrophe : Ascii.ascii := Ascii.ascii_of_nat 39.
Definition double_quote : Ascii.ascii := Ascii.ascii_of_nat 34.
Definition backslash : Ascii.ascii := Ascii.ascii_of_nat 92.

Fixpoint contains_char (c : Ascii.ascii) (s : string) : bool :=
  match s with
  | EmptyString => false
  | String a s' => Ascii.eqb a c || contains_char c s'
  end.

(** One lower-case hexadecimal digit. *)
Definition hex_digit (n : nat) : Ascii.ascii :=
  Ascii.ascii_of_nat (if (n <? 10)%nat then (48 + n)%nat else (87 + n)%nat).

(** One character of [repr(s)] between the quotes [q]: the backslash and
    the quote are escaped, tab, newline and carriage return are written
    [\t], [\n] and [\r], any other ASCII control character as [\xNN].
    Bytes from 128 on stay as they are: the characters they encode are
    taken to be printable. *)
Definition repr_char (q a : Ascii.ascii) : string :=
  let n := Ascii.nat_of_ascii a in
  if Ascii.eqb a backslash then String backslash (String backslash "")
  else if Ascii.eqb a q then String backslash (String q "")
  else if (n =? 9)%nat then String backslash "t"
  else if (n =? 10)%nat then String backslash "n"
  else if (n =? 13)%nat then String backslash "r"
  else if (n <? 32)%nat || (n =? 127)%nat
       then String backslash
              ("x" +:+ String (hex_digit (n / 16)%nat)
                              (String (hex_digit (n mod 16)%nat) ""))
       else String a "".

Fixpoint repr_body (q : Ascii.ascii) (s : string) : string :=
  match s with
  | EmptyString => ""
  | String a s' => repr_char q a +:+ repr_body q s'
  end.

(** [repr(s)] of a [str]: between apostrophes, or between double quotes
    when the string holds an apostrophe and no double quote. *)
Definition py_repr (s : string) : string :=
  let q := if contains_char apostrophe s && negb (contains_char double_quote s)
           then double_quote else apostrophe in
  String q (repr_body q s +:+ String q "").

(** The [OSError] the system call reports: [str] of it ends with the
    [repr] of the file name. *)
Definition os_error (c : ExnClass) (errno : string) (p : Path) : Exn :=
  mkExn c (errno +:+ ": " +:+ py_repr (path_str p)).

Definition refusal_error (r : Refusal) (p : Path) : Exn :=
  match r with
  | EACCES => os_error PermissionError "[Errno 13] Permission denied" p
  | EROFS => os_error OSError "[Errno 30] Read-only file system" p
  | ENOSPC => os_error OSError "[Errno 28] No space left on device" p
  end.

(** [p.mkdir(exist_ok=True)] ([parents] stays [False]).  What is at [p]
    decides first (in a filesystem something exists at [p] only below a
    directory): an existing directory is accepted as it is, an existing
    file is an error.  Otherwise the parent must be a directory, and the
    directory is created unless the system refuses. *)
Definition mkdir_exist_ok (p : Path) : M System unit :=
  fun s =>
    match nodes s !! p with
    | Some Dir => (s, Return tt)
    | Some File => (s, Raise (os_error FileExistsError "[Errno 17] File exists" p))
    | None =>
        match nodes s !! path_parent p with
        | None =>
            (s, Raise (os_error FileNotFoundError "[Errno 2] No such file or directory" p))
        | Some File =>
            (s, Raise (os_error NotADirectoryError "[Errno 20] Not a directory" p))
        | Some Dir =>
            match refusals s !! p with
            | Some r => (s, Raise (refusal_error r p))
            | None =>
                ({| nodes := <[p := Dir]> (nodes s);
                    refusals := refusals s;
                    log := log s |}, Return tt)
            end
        end
    end.

Section Startup.
Variable h : Host.
Variable g : Globals.
(** [Path(__file__).parent] *)
Variable root : Path.
(** [traceback.format_exc()] *)
Variable traceback_format_exc : Exn -> string.

(** The first half of the [try] in [startup_event]: the four directories. *)
Definition ensure_directories : M System unit :=
  let project_root := root in
  let downloads_dir := path_div project_root "downloads" in
  mkdir_exist_ok downloads_dir ;;
  on_log (logger_info ("✅ 下载目录已创建/确认: " +:+ path_str downloads_dir)) ;;
  let temp_dir := path_div project_root "temp" in
  mkdir_exist_ok temp_dir ;;
  on_log (logger_info ("✅ 临时目录已创建/确认: " +:+ path_str temp_dir)) ;;
  let volume_dir := path_div project_root "Volume" in
  mkdir_exist_ok volume_dir ;;
  on_log (logger_info ("✅ Volume目录已创建/确认: " +:+ path_str volume_dir)) ;;
  let log_dir := path_div project_root "logs" in
  mkdir_exist_ok log_dir ;;
  on_log (logger_info ("✅ 日志目录已创建/确认: " +:+ path_str log_dir)).

(** The second half: the start-up report. *)
Definition log_startup_info : M System unit :=
  on_log (logger_info "✅ API服务器启动成功") ;;
  environment <- on_log (getitem (env_config g) "environment") ;;
  on_log (logger_info ("🌍 环境: " +:+ py_str h environment)) ;;
  api_enabled <- on_log (getitem (env_config g) "api_enabled") ;;
  on_log (logger_info ("🔐 认证: " +:+ if truthy api_enabled then "启用" else "禁用")) ;;
  port <- on_log (getitem (env_config g) "port") ;;
  on_log (logger_info ("🚀 端口: " +:+ py_str h port)) ;;
  on_log (logger_info ("⚡ 频率限制: " +:+
            if rate_limit_enabled (api_config g) then "启用" else "禁用")).

(** The body of the [try] in [startup_event]. *)
Definition startup_body : M System unit :=
  ensure_directories ;; log_startup_info.

(** [async def startup_event()]. *)
Definition startup_event : M System unit :=
  try_except startup_body
    [ (is_Exception, fun e =>
         on_log (logger_error ("❌ API服务器启动失败: " +:+ exn_str e)) ;;
         on_log (logger_error ("错误堆栈: " +:+ traceback_format_exc e))) ].
End Startup.

(** The four storage directories of the bootstrap, in creation order. *)
Definition storage_dirs (root : Path) : list Path :=
  [ path_div root "downloads"; path_div root "temp";
    path_div root "Volume"; path_div root "logs" ].

(** Whether [mkdir_exist_ok p] goes through on a filesystem. *)
Definition creatable (m : gmap Path Node) (r : gmap Path Refusal) (p : Path) : bool :=
  match m !! p with
  | Some Dir => true
  | Some File => false
  | None =>
      match m !! path_parent p, r !! p with
      | Some Dir, None => true
      | _, _ => false
      end
  end.

(** The filesystem after [mkdir_exist_ok] on each path in turn, up to the
    first one that fails. *)
Fixpoint make_all (r : gmap Path Refusal) (ps : list Path) (m : gmap Path Node)
  : gmap Path Node :=
  match ps with
  | [] => m
  | p :: ps' => if creatable m r p then make_all r ps' (<[p := Dir]> m) else m
  end.

(** The error lines of the start-up hook. *)
Definition startup_failure_lines (traceback_format_exc : Exn -> string) (e : Exn) : Trace :=
  [ LogError ("❌ API服务器启动失败: " +:+ exn_str e);
    LogError ("错误堆栈: " +:+ traceback_format_exc e) ].

(** ** Observations on a trace *)

Definition is_init (ev : Event) : bool :=
  match ev with EvInit _ => true | _ => false end.
Definition is_enter (ev : Event) : bool :=
  match ev with EvEnter => true | _ => false end.
Definition is_extract (ev : Event) : bool :=
  match ev with EvExtract _ _ _ => true | _ => false end.
Definition is_exit (ev : Event) : bool :=
  match ev with EvExit _ => true | _ => false end.

(** How many calls of one kind a trace holds. *)
Definition calls (kind : Event -> bool) (tr : Trace) : nat :=
  length (List.filter kind tr).

(** A call on the extractor, as opposed to a log line or a clock read. *)
Definition session_call (ev : Event) : bool :=
  is_init ev || is_enter ev || is_extract ev || is_exit ev.

(** The log line that opens every request. *)
Definition request_line (request : DownloadRequest) (cid : string) : Event :=
  LogInfo ("下载请求: " +:+ url request +:+ " - 客户端: " +:+ cid).

(** The two log lines of the outer [except Exception] clause. *)
Definition failure_lines (w : Env) (e : Exn) : Trace :=
  [ LogError ("下载请求处理失败: " +:+ exn_str e);
    LogError ("错误堆栈: " +:+ format_exc w e) ].

(** ** Sample processes *)

Module Sample.
(** An extractor that constructs, opens and closes without error and
    answers [extract] with [answer]. *)
Definition extractor (answer : string -> Outcome PyVal) : XHS.behaviour :=
  {| XHS.init := fun _ => None;
     XHS.aenter := fun _ => None;
     XHS.extract := fun _ u _ _ => answer u;
     XHS.aexit := fun _ _ => Return false |}.

Definition env (module : option Exn) (x : XHS.behaviour) : Env :=
  {| project_root := ["app"];
     import_XHS := module;
     xhs := x;
     clock := fun n => "2025-01-01T00:00:0" +:+ String (Ascii.ascii_of_nat (48 + n mod 10)) "";
     format_exc := fun e => "Traceback (most recent call last): " +:+ exn_str e |}.

Definition client : gmap string string := {[ "client_id" := "tester" ]}.

Definition note (title : string) : PyVal := PDict [("作品标题", PStr title)].

(** Two records for any url, the empty one included. *)
Definition two_notes : Env :=
  env None (extractor (fun _ => Return (PList [note "a"; note "b"]))).

(** Nothing found. *)
Definition nothing : Env := env None (extractor (fun _ => Return (PList []))).

(** Extraction fails with a runtime error. *)
Definition failing : Env :=
  env None (extractor (fun _ =>
    Raise (mkExn (OtherException "RuntimeError") "connection reset"))).

(** Extraction raises the framework's [HTTPException]. *)
Definition upstream_502 : Env :=
  env None (extractor (fun _ =>
    Raise (mkExn (HTTPException 502) "502: Bad Gateway"))).

(** [source.application] cannot be imported. *)
Definition no_module : Env :=
  env (Some (mkExn ModuleNotFoundError "No module named 'source'"))
      (extractor (fun _ => Return (PList []))).

Definition simple_settings : ApiConfig :=
  {| rate_limit_enabled := false; rate_limit_requests := 100; rate_limit_window := 60 |}.

Definition simple_environment : PyDict :=
  [ ("environment", PStr "simple"); ("api_enabled", PBool false);
    ("port", PInt 8000); ("debug", PBool true) ].

(** A provider whose every step works. *)
Definition provider (c : ApiConfig) (e : PyDict) : Config.provider :=
  {| Config.import_module := None;
     Config.setup_environment := None;
     Config.get_config := Return c;
     Config.get_environment_info := Return e |}.

Definition host (production : Config.provider) : Host :=
  {| production_config := production;
     simple_config := provider simple_settings simple_environment;
     getenv := fun _ => None;
     py_str := fun v =>
       match v with
       | PStr s => s
       | PInt z => pretty z
       | PBool true => "True"
       | PBool false => "False"
       | PNone => "None"
       | PList _ | PDict _ => "<object>"
       end |}.

(** [config/production_config.py] is not there. *)
Definition production_missing : Host :=
  host {| Config.import_module :=
            Some (mkExn ModuleNotFoundError "No module named 'config.production_config'");
          Config.setup_environment := None;
          Config.get_config := Return simple_settings;
          Config.get_environment_info := Return [] |}.

(** The production provider is there, and its set-up rejects its data. *)
Definition production_malformed : Host :=
  host {| Config.import_module := None;
          Config.setup_environment :=
            Some (mkExn (OtherException "ValueError") "invalid production settings");
          Config.get_config := Return simple_settings;
          Config.get_environment_info := Return [] |}.

Definition globals : Globals :=
  {| api_config := simple_settings;
     env_config := simple_environment;
     app := {| title := "XHS Downloader API"; version := "1.0.0";
               docs_url := Some "/docs"; redoc_url := Some "/redoc";
               root_path := "";
               middleware := [APIAuthMiddleware;
                              CORSMiddleware ["*"] true ["*"] ["*"]] |} |}.

(** A fresh checkout under [/app]: the directory itself and nothing else. *)
Definition fresh : System :=
  {| nodes := {[ ["app"] := Dir ]}; refusals := ∅; log := [] |}.

(** The same, where the system refuses to create [/app/temp]. *)
Definition temp_refused : System :=
  {| nodes := {[ ["app"] := Dir ]};
     refusals := {[ ["app"; "temp"] := EACCES ]};
     log := [] |}.
End Sample.

(** ** The read-only endpoints and the entry point *)

(** What an endpoint hands to the framework: a plain dict, answered with
    status 200, or an explicit [JSONResponse]. *)
Inductive Reply :=
| Plain (body : PyDict)
| JSONResponse (status_code : Z) (content : PyDict).

(** The status the client sees for a reply. *)
Definition reply_status (r : Reply) : Z :=
  match r with
  | Plain _ => 200
  | JSONResponse status_code _ => status_code
  end.

(** What the endpoints and the entry point read from the interpreter. *)
Record Runtime := mkRuntime {
  (** [time.time()], by the number of calls made so far; the float is
      passed on as it is *)
  time_time : nat -> PyVal;
  (** [asyncio.get_event_loop().time()] *)
  loop_time : nat -> PyVal;
  sys_version : string;
  sys_platform : string;
  (** what a function bound to [get_auth_status] would answer *)
  auth_status_answer : Outcome PyDict;
  (** [uvicorn.run(app, host=..., port=..., log_level="info")], by host
      and port: it returns when the server stops, or raises *)
  uvicorn_run : PyVal -> PyVal -> Outcome unit
}.

(** The names the module binds at top level, by its imports, assignments
    and definitions (both branches of each import fallback included). *)
Definition module_names : list string :=
  [ "asyncio"; "uvicorn"; "logging"; "time"; "datetime"; "FastAPI";
    "HTTPException"; "Request"; "Depends"; "JSONResponse"; "CORSMiddleware";
    "BaseModel"; "Optional"; "List"; "Dict"; "Any"; "sys"; "os"; "traceback";
    "Path"; "Manager"; "module_logging"; "_"; "Cleaner"; "beautify_string";
    "APIAuthMiddleware"; "get_client_info";
    "get_production_config"; "get_production_auth"; "setup_production_environment";
    "get_simple_config"; "get_simple_auth"; "setup_simple_environment";
    "api_config"; "env_config"; "logger"; "api_root_path"; "app";
    "startup_event"; "DownloadRequest"; "DownloadResponse"; "root";
    "health_check"; "get_info"; "get_status"; "get_auth_status_endpoint";
    "download_content"; "get_client_info_endpoint" ].

(** Reading a global name inside a function: a name the module does not
    bind (and that is no builtin) is a [NameError]. *)
Definition load_global (name : string) : M Trace unit :=
  if bool_decide (name ∈ module_names) then ret tt
  else raise (mkExn (OtherException "NameError")
                    ("name '" +:+ name +:+ "' is not defined")).

(** The call [get_auth_status()]. *)
Definition get_auth_status (rt : Runtime) : M Trace PyDict :=
  load_global "get_auth_status" ;;
  yields (auth_status_answer rt).

(** [raise HTTPException(status_code=..., detail=...)]; [str] of the
    exception is the status, a colon and the detail. *)
Definition raise_HTTPException {A} (status_code : Z) (detail : string) : M Trace A :=
  raise (mkExn (HTTPException status_code) (pretty status_code +:+ ": " +:+ detail)).

Section Endpoints.
Variable h : Host.
Variable rt : Runtime.
Variable g : Globals.

(** A call of [time.time()]. *)
Definition time_now : M Trace PyVal :=
  fun tr => ((tr ++ [EvNow])%list, Return (time_time rt (length tr))).

(** A call of [asyncio.get_event_loop().time()]. *)
Definition event_loop_time : M Trace PyVal :=
  fun tr => ((tr ++ [EvNow])%list, Return (loop_time rt (length tr))).

(** [async def root()]. *)
Definition root : M Trace Reply :=
  environment <- getitem (env_config g) "environment" ;;
  auth_enabled <- getitem (env_config g) "api_enabled" ;;
  ret (Plain [ ("message", PStr "XHS Downloader API 服务正在运行");
               ("environment", environment);
               ("auth_enabled", auth_enabled);
               ("version", PStr "1.0.0") ]).

(** [async def health_check()]. *)
Definition health_check : M Trace Reply :=
  try_except
    (environment <- getitem (env_config g) "environment" ;;
     auth_enabled <- getitem (env_config g) "api_enabled" ;;
     timestamp <- time_now ;;
     ret (Plain [ ("status", PStr "healthy");
                  ("service", PStr "XHS Downloader API");
                  ("environment", environment);
                  ("auth_enabled", auth_enabled);
                  ("timestamp", timestamp) ]))
    [ (is_Exception, fun e =>
         logger_error ("健康检查失败: " +:+ exn_str e) ;;
         timestamp <- time_now ;;
         ret (JSONResponse 503
                [ ("status", PStr "unhealthy");
                  ("service", PStr "XHS Downloader API");
                  ("message", PStr ("服务异常: " +:+ exn_str e));
                  ("timestamp", timestamp) ])) ].

(** [async def get_info()]. *)
Definition get_info : M Trace Reply :=
  try_except
    (auth_status <- get_auth_status rt ;;
     environment <- getitem auth_status "environment" ;;
     auth_enabled <- getitem auth_status "auth_enabled" ;;
     rate_limit <- getitem auth_status "rate_limit_enabled" ;;
     port <- getitem auth_status "port" ;;
     debug <- getitem auth_status "debug" ;;
     ret (Plain [ ("service", PStr "XHS Downloader API");
                  ("version", PStr "1.0.0");
                  ("environment", environment);
                  ("python_version", PStr (sys_version rt));
                  ("platform", PStr (sys_platform rt));
                  ("auth_enabled", auth_enabled);
                  ("rate_limit_enabled", rate_limit);
                  ("port", port);
                  ("debug", debug) ]))
    [ (is_Exception, fun e =>
         logger_error ("获取服务信息失败: " +:+ exn_str e) ;;
         raise_HTTPException 500 ("无法获取服务信息: " +:+ exn_str e)) ].

(** [async def get_status()]. *)
Definition get_status : M Trace Reply :=
  try_except
    (environment <- getitem (env_config g) "environment" ;;
     auth_enabled <- getitem (env_config g) "api_enabled" ;;
     ret (Plain [ ("status", PStr "running");
                  ("environment", environment);
                  ("auth_enabled", auth_enabled);
                  ("rate_limit",
                   PDict [ ("enabled", PBool (rate_limit_enabled (api_config g)));
                           ("max_requests", PInt (rate_limit_requests (api_config g)));
                           ("window_seconds", PInt (rate_limit_window (api_config g))) ]);
                  ("downloads", PList []);
                  ("service", PStr "initialized") ]))
    [ (is_Exception, fun e =>
         logger_error ("获取服务状态失败: " +:+ exn_str e) ;;
         timestamp <- event_loop_time ;;
         ret (JSONResponse 503
                [ ("status", PStr "error");
                  ("message", PStr ("服务异常: " +:+ exn_str e));
                  ("error_code", PStr "SERVICE_ERROR");
                  ("timestamp", timestamp) ])) ].

(** [async def get_auth_status_endpoint()]. *)
Definition get_auth_status_endpoint : M Trace Reply :=
  try_except
    (auth_status <- get_auth_status rt ;; ret (Plain auth_status))
    [ (is_Exception, fun e =>
         logger_error ("获取认证状态失败: " +:+ exn_str e) ;;
         raise_HTTPException 500 ("无法获取认证状态: " +:+ exn_str e)) ].

(** [isinstance(e, KeyboardInterrupt)]. *)
Definition is_KeyboardInterrupt (e : Exn) : bool :=
  match exn_class e with
  | KeyboardInterrupt => true
  | _ => false
  end.

(** [print(...)]. *)
Definition print (msg : string) : M Trace unit := emit (EvPrint msg).

(** [sys.exit(1)]. *)
Definition sys_exit_1 {A} : M Trace A :=
  raise (mkExn (OtherBaseException "SystemExit") "1").

(** The [if __name__ == "__main__":] block. *)
Definition main : M Trace unit :=
  print "🚀 启动XHS-Downloader API服务器..." ;;
  environment <- getitem (env_config g) "environment" ;;
  print ("🌍 环境: " +:+ py_str h environment) ;;
  api_enabled <- getitem (env_config g) "api_enabled" ;;
  print ("🔐 认证: " +:+ if truthy api_enabled then "启用" else "禁用") ;;
  port <- getitem (env_config g) "port" ;;
  print ("🚀 端口: " +:+ py_str h port) ;;
  let docs_host := default (PStr "127.0.0.1") (dict_get (env_config g) "host") in
  docs_port <- getitem (env_config g) "port" ;;
  print ("📚 API文档: http://" +:+ py_str h docs_host +:+ ":" +:+
         py_str h docs_port +:+ "/docs") ;;
  print "🔧 按 Ctrl+C 停止服务器" ;;
  try_except
    (let host := default (PStr "0.0.0.0") (dict_get (env_config g) "host") in
     run_port <- getitem (env_config g) "port" ;;
     yields (uvicorn_run rt host run_port))
    [ (is_KeyboardInterrupt, fun _ =>
         print (String (Ascii.ascii_of_nat 10) "👋 服务器已停止"));
      (is_Exception, fun e =>
         print ("❌ 服务器启动失败: " +:+ exn_str e) ;;
         sys_exit_1) ].
End Endpoints.

(** Whether a trace holds an error line of the logger. *)
Definition is_error_line (ev : Event) : bool :=
  match ev with LogError _ => true | _ => false end.

Module Fixture.
(** An interpreter whose clocks count and whose server runs until told
    otherwise. *)
Definition runtime (server : Outcome unit) : Runtime :=
  {| time_time := fun n => PInt (1700000000 + Z.of_nat n);
     loop_time := fun n => PInt (Z.of_nat n);
     sys_version := "3.12.0";
     sys_platform := "linux";
     auth_status_answer := Return Sample.simple_environment;
     uvicorn_run := fun _ _ => server |}.

(** Globals whose environment information lacks ["api_enabled"]. *)
Definition globals_without_api_enabled : Globals :=
  {| api_config := Sample.simple_settings;
     env_config := [ ("environment", PStr "simple"); ("port", PInt 8000);
                     ("debug", PBool false) ];
     app := app Sample.globals |}.

(** Globals whose environment information lacks ["port"]. *)
Definition globals_without_port : Globals :=
  {| api_config := Sample.simple_settings;
     env_config := [ ("environment", PStr "simple"); ("api_enabled", PBool false);
                     ("debug", PBool false) ];
     app := app Sample.globals |}.

(** A host whose production provider loads, with debugging off. *)
Definition production_settings : ApiConfig :=
  {| rate_limit_enabled := true; rate_limit_requests := 60; rate_limit_window := 60 |}.

Definition production_environment : PyDict :=
  [ ("environment", PStr "production"); ("api_enabled", PBool true);
    ("port", PInt 8080); ("debug", PBool false) ].

Definition production_ready : Host :=
  {| production_config := Sample.provider production_settings production_environment;
     simple_config := Sample.provider Sample.simple_settings Sample.simple_environment;
     getenv := fun name => if String.eqb name "API_ROOT_PATH" then Some "xhs" else None;
     py_str := py_str (Sample.host (Sample.provider Sample.simple_settings [])) |}.

(** The globals its module body leaves. *)
Definition production_globals : Globals :=
  {| api_config := production_settings;
     env_config := production_environment;
     app := {| title := "XHS Downloader API"; version := "1.0.0";
               docs_url := None; redoc_url := None;
               root_path := "/xhs";
               middleware := [APIAuthMiddleware;
                              CORSMiddleware ["*"] true ["*"] ["*"]] |} |}.

(** Neither provider can be imported. *)
Definition no_provider : Host :=
  {| production_config :=
       {| Config.import_module :=
            Some (mkExn ModuleNotFoundError "No module named 'config.production_config'");
          Config.setup_environment := None;
          Config.get_config := Return Sample.simple_settings;
          Config.get_environment_info := Return [] |};
     simple_config :=
       {| Config.import_module :=
            Some (mkExn ModuleNotFoundError "No module named 'config.simple_config'");
          Config.setup_environment := None;
          Config.get_config := Return Sample.simple_settings;
          Config.get_environment_info := Return [] |};
     getenv := fun _ => None;
     py_str := py_str (Sample.host (Sample.provider Sample.simple_settings [])) |}.

(** The simple provider loads, and its environment information has no
    ["debug"] entry. *)
Definition no_debug_entry : Host :=
  {| production_config := production_config Sample.production_missing;
     simple_config :=
       Sample.provider Sample.simple_settings
         [ ("environment", PStr "simple"); ("api_enabled", PBool false);
           ("port", PInt 8000) ];
     getenv := fun _ => None;
     py_str := py_str (Sample.host (Sample.provider Sample.simple_settings [])) |}.

(** An extractor whose entry hook fails. *)
Definition enter_fails : Env :=
  Sample.env None
    {| XHS.init := fun _ => None;
       XHS.aenter := fun _ => Some (mkExn (OtherException "ConnectError") "no route to host");
       XHS.extract := fun _ _ _ _ => Return (PList [Sample.note "a"]);
       XHS.aexit := fun _ _ => Return false |}.

(** An extractor that finds a record and then fails to close. *)
Definition exit_fails : Env :=
  Sample.env None
    {| XHS.init := fun _ => None;
       XHS.aenter := fun _ => None;
       XHS.extract := fun _ _ _ _ => Return (PList [Sample.note "a"]);
       XHS.aexit := fun _ _ => Raise (mkExn (OtherException "RuntimeError") "client already closed") |}.

(** An extractor whose exit hook swallows the error of [extract]. *)
Definition swallowing : Env :=
  Sample.env None
    {| XHS.init := fun _ => None;
       XHS.aenter := fun _ => None;
       XHS.extract := fun _ _ _ _ =>
         Raise (mkExn (OtherException "RuntimeError") "connection reset");
       XHS.aexit := fun _ _ => Return true |}.


(** The module is there and broken. *)
Definition broken_module : Env :=
  Sample.env (Some (mkExn (OtherException "SyntaxError") "invalid syntax (application.py, line 12)"))
             (Sample.extractor (fun _ => Return (PList []))).

(** A checkout where [downloads] is a file. *)
Definition downloads_is_file : System :=
  {| nodes := {[ ["app"] := Dir; ["app"; "downloads"] := File ]};
     refusals := ∅; log := [] |}.
End Fixture.

(** * Properties *)

(** ** Running the handler *)

Ltac unfold_handler :=
  unfold download_content, download_body, construct_and_extract, map_result,
    client_id_of, datetime_now_isoformat, logger_info, logger_error, emit,
    completes, yields, async_with, try_except, bind, ret, raise, py_len.

Ltac in_cases H :=
  simpl in H; repeat (destruct H as [H|H]; [try discriminate H|]);
  try contradiction.

Lemma calls_app (kind : Event -> bool) (a b : Trace) :
  calls kind (a ++ b) = calls kind a + calls kind b.
Proof. unfold calls. rewrite List.filter_app, length_app. reflexivity. Qed.

Lemma calls_quiet (kind : Event -> bool) (tr : Trace) :
  Forall (fun ev => session_call ev = false) tr ->
  (forall ev, kind ev = true -> session_call ev = true) ->
  calls kind tr = 0.
Proof.
  intros Hq Hk. unfold calls. induction Hq as [|ev tr Hev _ IH]; [reflexivity|].
  simpl. destruct (kind ev) eqn:E; [|exact IH].
  apply Hk in E. congruence.
Qed.

Lemma quiet_not_in (ev : Event) (tr : Trace) :
  Forall (fun ev => session_call ev = false) tr ->
  session_call ev = true -> ~ In ev tr.
Proof.
  intros Hq Hs Hin. rewrite Forall_forall in Hq.
  apply list_elem_of_In, Hq in Hin. congruence.
Qed.

Section HandlerFacts.
Variable w : Env.
Variable request : DownloadRequest.

(** Construction and the scoped extraction only append to the trace, and
    what they append and answer does not depend on what came before. *)
Lemma construct_and_extract_frame (tr : Trace) :
  construct_and_extract w request tr =
  ((tr ++ fst (construct_and_extract w request []))%list,
   snd (construct_and_extract w request [])).
Proof.
  unfold_handler; simpl.
  repeat (case_match; simplify_eq/=); rewrite <- ?app_assoc; reflexivity.
Qed.

(** The calls of construction and scoped extraction: the constructor alone
    when it raises, the constructor and the entry hook when that raises,
    and otherwise the constructor, the entry hook, one [extract] and one
    exit hook. *)
Lemma construct_and_extract_shape :
  fst (construct_and_extract w request []) = [EvInit (xhs_kwargs w request)]
  \/ fst (construct_and_extract w request []) = [EvInit (xhs_kwargs w request); EvEnter]
  \/ exists pending,
       fst (construct_and_extract w request []) =
       [ EvInit (xhs_kwargs w request); EvEnter;
         EvExtract (url request) true None; EvExit pending ].
Proof.
  unfold_handler; simpl.
  destruct (XHS.init _ _); simpl; [auto|].
  destruct (XHS.aenter _ _); simpl; [auto|].
  right; right.
  destruct (XHS.extract _ _ _ _ _) as [r|e]; simpl.
  - destruct (XHS.aexit _ _ None); simpl; eauto.
  - destruct (XHS.aexit _ _ (Some e)) as [[]|]; simpl; eauto.
Qed.

(** Once the session is constructed and entered, the block runs [extract]
    once and the exit hook once, whatever [extract] does. *)
Lemma construct_and_extract_acquired :
  XHS.init (xhs w) (xhs_kwargs w request) = None ->
  XHS.aenter (xhs w) (xhs_kwargs w request) = None ->
  fst (construct_and_extract w request []) =
    [ EvInit (xhs_kwargs w request); EvEnter;
      EvExtract (url request) true None;
      EvExit match XHS.extract (xhs w) (xhs_kwargs w request) (url request) true None with
             | Return _ => None
             | Raise e => Some e
             end ].
Proof.
  intros Hinit Henter. unfold_handler; simpl. rewrite Hinit, Henter.
  destruct (XHS.extract _ _ _ _ _) as [r|e]; simpl.
  - destruct (XHS.aexit _ _ None); reflexivity.
  - destruct (XHS.aexit _ _ (Some e)) as [[]|]; reflexivity.
Qed.

(** The result mapping makes no call on the extractor. *)
Lemma map_result_quiet (bound : option PyVal) (tr : Trace) :
  exists post,
    fst (map_result w request bound tr) = (tr ++ post)%list
    /\ Forall (fun ev => session_call ev = false) post.
Proof.
  unfold map_result, datetime_now_isoformat, py_len, bind, ret, raise.
  destruct bound as [result|]; simpl.
  - destruct (truthy result); [|exists []; rewrite app_nil_r; auto].
    destruct result; simpl;
      first [ exists [EvNow]; split; [reflexivity|repeat constructor]
            | exists []; rewrite app_nil_r; auto ].
  - exists []; rewrite app_nil_r; auto.
Qed.

(** The handler's own [except] clauses make no call on the extractor. *)
Lemma dispatch_quiet (e : Exn) (tr : Trace) :
  exists post,
    fst (dispatch
           [ (is_HTTPException, fun e => raise e);
             (is_Exception, fun e =>
                logger_error ("下载请求处理失败: " +:+ exn_str e) ;;
                logger_error ("错误堆栈: " +:+ format_exc w e) ;;
                ret (mkDownloadResponse false ("下载失败: " +:+ exn_str e) None)) ]
           e tr) = (tr ++ post)%list
    /\ Forall (fun ev => session_call ev = false) post.
Proof.
  simpl. destruct (is_HTTPException e); [exists []; rewrite app_nil_r; auto|].
  destruct (is_Exception e); [|exists []; rewrite app_nil_r; auto].
  exists (failure_lines w e). unfold logger_error, emit, bind, ret; simpl.
  rewrite <- app_assoc. split; [reflexivity|repeat constructor].
Qed.
End HandlerFacts.

Section HandlerShape.
Variable w : Env.
Variable request : DownloadRequest.
Variable client_info : gmap string string.

Local Arguments construct_and_extract : simpl never.
Local Arguments map_result : simpl never.

(** With a client id and a loadable module, the body of the outer [try] is
    construction and scoped extraction followed by the result mapping. *)
Lemma download_body_loaded (cid : string) :
  client_info !! "client_id" = Some cid ->
  import_XHS w = None ->
  download_body w request client_info [] =
  (bound <- construct_and_extract w request ;; map_result w request bound)
    [request_line request cid; EvImportXHS].
Proof.
  intros Hcid Himp. unfold download_body, client_id_of. rewrite Hcid, Himp.
  reflexivity.
Qed.

(** Construction and scoped extraction followed by the result mapping:
    the calls of the former, then log lines and clock reads. *)
Lemma extract_then_map_shape (tr : Trace) :
  exists post,
    fst ((bound <- construct_and_extract w request ;; map_result w request bound) tr) =
      (tr ++ fst (construct_and_extract w request []) ++ post)%list
    /\ Forall (fun ev => session_call ev = false) post.
Proof.
  unfold bind. rewrite construct_and_extract_frame.
  destruct (snd (construct_and_extract w request [])) as [bound|e].
  - match goal with |- context [map_result w request bound ?t] =>
      destruct (map_result_quiet w request bound t) as [post [H Hq]]
    end.
    exists post. rewrite H, <- app_assoc. auto.
  - exists []. simpl. rewrite app_nil_r. auto.
Qed.

(** The outer [try] adds log lines only to what its body did. *)
Lemma outer_try_extends (body : M Trace DownloadResponse) (tr : Trace) :
  exists post,
    fst (try_except body
           [ (is_HTTPException, fun e => raise e);
             (is_Exception, fun e =>
                logger_error ("下载请求处理失败: " +:+ exn_str e) ;;
                logger_error ("错误堆栈: " +:+ format_exc w e) ;;
                ret (mkDownloadResponse false ("下载失败: " +:+ exn_str e) None)) ]
           tr) = (fst (body tr) ++ post)%list
    /\ Forall (fun ev => session_call ev = false) post.
Proof.
  unfold try_except. destruct (body tr) as [tr' [a|e]].
  - exists []. simpl. rewrite app_nil_r. auto.
  - apply dispatch_quiet.
Qed.

(** Every run of the body is some log lines, then at most one construction
    and scoped extraction, then log lines and clock reads. *)
Lemma download_body_shape :
  exists pre mid post,
    fst (download_body w request client_info []) = (pre ++ mid ++ post)%list
    /\ Forall (fun ev => session_call ev = false) pre
    /\ Forall (fun ev => session_call ev = false) post
    /\ (mid = [] \/ mid = fst (construct_and_extract w request [])).
Proof.
  destruct (client_info !! "client_id") as [cid|] eqn:Hcid.
  - destruct (import_XHS w) as [e|] eqn:Himp.
    + unfold download_body, client_id_of. rewrite Hcid, Himp.
      unfold try_except, bind, logger_info, logger_error, emit, ret, raise; simpl.
      exists (fst (if is_ImportError e
                   then ([request_line request cid; EvImportXHS;
                          LogError ("无法导入XHS类: " +:+ exn_str e)],
                         Return tt)
                   else ([request_line request cid; EvImportXHS], Return tt))), [], [].
      destruct (is_ImportError e); simpl; repeat split; auto; repeat constructor.
    + rewrite (download_body_loaded cid Hcid Himp).
      destruct (extract_then_map_shape [request_line request cid; EvImportXHS])
        as [post [H Hq]].
      exists [request_line request cid; EvImportXHS],
             (fst (construct_and_extract w request [])), post.
      rewrite H. repeat split; auto; repeat constructor.
  - unfold download_body, client_id_of. rewrite Hcid.
    exists [], [], []. repeat split; auto.
Qed.

(** The same for the handler. *)
Lemma download_content_shape :
  exists pre mid post,
    fst (download_content w request client_info []) = (pre ++ mid ++ post)%list
    /\ Forall (fun ev => session_call ev = false) pre
    /\ Forall (fun ev => session_call ev = false) post
    /\ (mid = [] \/ mid = fst (construct_and_extract w request [])).
Proof.
  destruct download_body_shape as [pre [mid [post1 [H [Hpre [Hpost1 Hmid]]]]]].
  destruct (outer_try_extends (download_body w request client_info) [])
    as [post2 [H2 Hpost2]].
  exists pre, mid, (post1 ++ post2)%list.
  unfold download_content. rewrite H2, H, <- !app_assoc.
  repeat split; auto. apply Forall_app; auto.
Qed.

(** A run in which the session is constructed and entered: its calls up to
    the exit hook, followed by log lines and clock reads only. *)
Lemma acquired_run (cid : string) :
  client_info !! "client_id" = Some cid ->
  import_XHS w = None ->
  XHS.init (xhs w) (xhs_kwargs w request) = None ->
  XHS.aenter (xhs w) (xhs_kwargs w request) = None ->
  exists post,
    fst (download_content w request client_info []) =
      ([ request_line request cid; EvImportXHS; EvInit (xhs_kwargs w request);
         EvEnter; EvExtract (url request) true None;
         EvExit match XHS.extract (xhs w) (xhs_kwargs w request)
                        (url request) true None with
                | Return _ => None
                | Raise e => Some e
                end ] ++ post)%list
    /\ Forall (fun ev => session_call ev = false) post.
Proof.
  intros Hcid Himp Hinit Henter.
  destruct (outer_try_extends (download_body w request client_info) [])
    as [post2 [H2 Hpost2]].
  destruct (extract_then_map_shape [request_line request cid; EvImportXHS])
    as [post1 [H1 Hpost1]].
  exists (post1 ++ post2)%list.
  unfold download_content.
  rewrite H2, (download_body_loaded cid Hcid Himp), H1.
  rewrite (construct_and_extract_acquired w request Hinit Henter).
  split; [|apply Forall_app; auto].
  rewrite <- !app_assoc. reflexivity.
Qed.

(** The calls on the extractor in a run, counted. *)
Lemma session_calls_bounds :
  calls is_init (fst (download_content w request client_info [])) <= 1
  /\ calls is_extract (fst (download_content w request client_info [])) <= 1
  /\ calls is_exit (fst (download_content w request client_info [])) =
     calls is_extract (fst (download_content w request client_info []))
  /\ calls is_extract (fst (download_content w request client_info [])) <=
     calls is_enter (fst (download_content w request client_info []))
  /\ calls is_enter (fst (download_content w request client_info [])) <= 1.
Proof.
  destruct download_content_shape as [pre [mid [post [H [Hpre [Hpost Hmid]]]]]].
  rewrite H, !calls_app.
  rewrite !(calls_quiet _ pre Hpre), !(calls_quiet _ post Hpost)
    by (intros []; done).
  destruct Hmid as [-> | ->]; [unfold calls; simpl; lia|].
  destruct (construct_and_extract_shape w request) as [-> | [-> | [pending ->]]];
    unfold calls; simpl; lia.
Qed.
End HandlerShape.

(** The handler reads a request through its [url] and the keyword arguments
    it derives, and through nothing else. *)
Lemma download_content_reads (w : Env) (r1 r2 : DownloadRequest)
      (client_info : gmap string string) (tr : Trace) :
  url r1 = url r2 ->
  xhs_kwargs w r1 = xhs_kwargs w r2 ->
  download_content w r1 client_info tr = download_content w r2 client_info tr.
Proof.
  intros Hu Hk. unfold download_content, download_body, construct_and_extract,
    map_result. rewrite Hu, Hk. reflexivity.
Qed.

(** ** C2: mapping the extraction result to the response *)

(** C2, as the code has it.  When extraction returns and the exit hook of
    the session returns too, a non-empty list of [n] records gives
    [success=True] with [result_count = n], the records as the extractor
    gave them and a timestamp read after the session was released; an empty
    list or [None] gives [success=False], the no-content message and no
    data.  Either way the handler returns. *)
Theorem result_mapping (w : Env) (request : DownloadRequest)
        (client_info : gmap string string) (cid : string)
        (result : PyVal) (swallow : bool) :
  client_info !! "client_id" = Some cid ->
  import_XHS w = None ->
  XHS.init (xhs w) (xhs_kwargs w request) = None ->
  XHS.aenter (xhs w) (xhs_kwargs w request) = None ->
  XHS.extract (xhs w) (xhs_kwargs w request) (url request) true None = Return result ->
  XHS.aexit (xhs w) (xhs_kwargs w request) None = Return swallow ->
  (forall l : list PyVal, result = PList l -> l <> [] ->
     download_content w request client_info [] =
     ([ request_line request cid; EvImportXHS; EvInit (xhs_kwargs w request);
        EvEnter; EvExtract (url request) true None; EvExit None; EvNow ],
      Return {| success := true;
                message := "下载成功完成";
                data := Some [ ("url", PStr (url request));
                               ("status", PStr "completed");
                               ("message", PStr "下载完成");
                               ("result_count", PInt (Z.of_nat (length l)));
                               ("results", PList l);
                               ("timestamp", PStr (clock w 6)) ] |}))
  /\ (result = PList [] \/ result = PNone ->
      download_content w request client_info [] =
      ([ request_line request cid; EvImportXHS; EvInit (xhs_kwargs w request);
         EvEnter; EvExtract (url request) true None; EvExit None ],
       Return {| success := false;
                 message := "下载失败：未获取到内容";
                 data := None |})).
Proof.
  intros Hcid Himp Hinit Henter Hext Hexit.
  unfold download_content, try_except.
  rewrite (download_body_loaded w request client_info cid Hcid Himp).
  unfold_handler; simpl. rewrite Hinit, Henter, Hext; simpl. rewrite Hexit; simpl.
  split.
  - intros l -> Hne. destruct l as [|x l]; [done|]. reflexivity.
  - intros [-> | ->]; reflexivity.
Qed.

Lemma result_mapping_witness :
  download_content Sample.two_notes (DownloadRequest_defaults "https://xhslink.com/a")
    Sample.client [] =
  ([ request_line (DownloadRequest_defaults "https://xhslink.com/a") "tester";
     EvImportXHS;
     EvInit (xhs_kwargs Sample.two_notes (DownloadRequest_defaults "https://xhslink.com/a"));
     EvEnter; EvExtract "https://xhslink.com/a" true None; EvExit None; EvNow ],
   Return {| success := true;
             message := "下载成功完成";
             data := Some [ ("url", PStr "https://xhslink.com/a");
                            ("status", PStr "completed");
                            ("message", PStr "下载完成");
                            ("result_count", PInt 2);
                            ("results", PList [Sample.note "a"; Sample.note "b"]);
                            ("timestamp", PStr (clock Sample.two_notes 6)) ] |}).
Proof.
  apply (proj1 (result_mapping Sample.two_notes
                  (DownloadRequest_defaults "https://xhslink.com/a")
                  Sample.client "tester"
                  (PList [Sample.note "a"; Sample.note "b"]) false
                  eq_refl eq_refl eq_refl eq_refl eq_refl eq_refl)
               [Sample.note "a"; Sample.note "b"] eq_refl).
  discriminate.
Defined.

(** C2 as stated fails: [extract] returns a non-empty list, the exit hook of
    the session then raises, and the handler answers with a failure that
    carries the exit hook's error. *)
Lemma exit_error_after_results :
  XHS.extract (xhs Fixture.exit_fails)
    (xhs_kwargs Fixture.exit_fails (DownloadRequest_defaults "https://xhslink.com/a"))
    "https://xhslink.com/a" true None
  = Return (PList [Sample.note "a"])
  /\ ~ (exists response,
          snd (download_content Fixture.exit_fails
                 (DownloadRequest_defaults "https://xhslink.com/a") Sample.client [])
          = Return response
          /\ success response = true)
  /\ snd (download_content Fixture.exit_fails
            (DownloadRequest_defaults "https://xhslink.com/a") Sample.client [])
     = Return {| success := false;
                 message := "下载失败: client already closed";
                 data := None |}.
Proof.
  split; [reflexivity|]. split; [|reflexivity].
  intros [response [H Hs]]. vm_compute in H. injection H as <-. discriminate Hs.
Qed.

(** ** C3: the session is released on every path *)

(** C3. Once the session is constructed and entered, [extract] is called
    once and then the exit hook is called exactly once, with the pending
    exception if [extract] raised: this holds whether [extract] returns
    records, returns nothing, or raises, and whatever the exit hook itself
    answers. *)
Theorem session_released_once (w : Env) (request : DownloadRequest)
        (client_info : gmap string string) (cid : string) :
  client_info !! "client_id" = Some cid ->
  import_XHS w = None ->
  XHS.init (xhs w) (xhs_kwargs w request) = None ->
  XHS.aenter (xhs w) (xhs_kwargs w request) = None ->
  calls is_exit (fst (download_content w request client_info [])) = 1
  /\ exists pending rest,
       fst (download_content w request client_info []) =
         ([ request_line request cid; EvImportXHS; EvInit (xhs_kwargs w request);
            EvEnter; EvExtract (url request) true None; EvExit pending ] ++ rest)%list
       /\ pending = match XHS.extract (xhs w) (xhs_kwargs w request)
                            (url request) true None with
                    | Return _ => None
                    | Raise e => Some e
                    end.
Proof.
  intros Hcid Himp Hinit Henter.
  destruct (acquired_run w request client_info cid Hcid Himp Hinit Henter)
    as [post [Htr Hq]].
  split.
  - rewrite Htr, calls_app, (calls_quiet is_exit post Hq) by (intros []; done).
    reflexivity.
  - eexists _, post. split; [exact Htr|reflexivity].
Qed.

Lemma session_released_once_witness :
  calls is_exit
    (fst (download_content Sample.failing (DownloadRequest_defaults "https://xhslink.com/a")
            Sample.client [])) = 1.
Proof.
  apply (session_released_once Sample.failing
           (DownloadRequest_defaults "https://xhslink.com/a") Sample.client "tester");
    reflexivity.
Defined.


(** ** C9: how the extractor is constructed and invoked *)

(** C9. The timeout and the retry count handed to the extractor are the
    constants 30 and 3 for every request; every construction in a run uses
    the keyword arguments derived from the request; [extract] is called at
    most once per request, always with the request's url, [download=True]
    and [index=None]; and it is called exactly once when the module loads
    and the session is constructed and entered. *)
Theorem extractor_invocation (w : Env) (request : DownloadRequest)
        (client_info : gmap string string) :
  (forall r : DownloadRequest,
     XHS.timeout (xhs_kwargs w r) = 30%Z /\ XHS.max_retry (xhs_kwargs w r) = 3%Z)
  /\ (forall args, In (EvInit args) (fst (download_content w request client_info [])) ->
        args = xhs_kwargs w request)
  /\ calls is_extract (fst (download_content w request client_info [])) <= 1
  /\ (forall u d i,
        In (EvExtract u d i) (fst (download_content w request client_info [])) ->
        u = url request /\ d = true /\ i = None)
  /\ (forall cid,
        client_info !! "client_id" = Some cid ->
        import_XHS w = None ->
        XHS.init (xhs w) (xhs_kwargs w request) = None ->
        XHS.aenter (xhs w) (xhs_kwargs w request) = None ->
        calls is_init (fst (download_content w request client_info [])) = 1
        /\ calls is_extract (fst (download_content w request client_info [])) = 1).
Proof.
  split; [intros r; split; reflexivity|].
  destruct (download_content_shape w request client_info)
    as [pre [mid [post [Htr [Hpre [Hpost Hmid]]]]]].
  destruct (session_calls_bounds w request client_info) as [_ [Hle _]].
  assert (forall ev, session_call ev = true ->
            In ev (fst (download_content w request client_info [])) ->
            In ev (fst (construct_and_extract w request []))) as Hsession.
  { intros ev Hev. rewrite Htr, !in_app_iff. intros [Hin | [Hin | Hin]].
    - destruct (quiet_not_in ev pre Hpre Hev Hin).
    - destruct Hmid as [-> | ->]; [destruct Hin|exact Hin].
    - destruct (quiet_not_in ev post Hpost Hev Hin). }
  split; [|split; [exact Hle|split]].
  - intros args Hin. apply Hsession in Hin; [|reflexivity].
    destruct (construct_and_extract_shape w request) as [H | [H | [pending H]]];
      rewrite H in Hin; in_cases Hin; congruence.
  - intros u d i Hin. apply Hsession in Hin; [|reflexivity].
    destruct (construct_and_extract_shape w request) as [H | [H | [pending H]]];
      rewrite H in Hin; in_cases Hin. injection Hin as <- <- <-. auto.
  - intros cid Hcid Himp Hinit Henter.
    destruct (acquired_run w request client_info cid Hcid Himp Hinit Henter)
      as [post' [Htr' Hq]].
    rewrite Htr', !calls_app.
    rewrite !(calls_quiet _ post' Hq) by (intros []; done).
    split; reflexivity.
Qed.

Lemma extractor_invocation_witness :
  calls is_init
    (fst (download_content Sample.failing (DownloadRequest_defaults "https://xhslink.com/a")
            Sample.client [])) = 1
  /\ calls is_extract
       (fst (download_content Sample.failing (DownloadRequest_defaults "https://xhslink.com/a")
               Sample.client [])) = 1.
Proof.
  apply (proj2 (proj2 (proj2 (proj2
           (extractor_invocation Sample.failing
              (DownloadRequest_defaults "https://xhslink.com/a") Sample.client))))
           "tester"); reflexivity.
Defined.

(** ** C10: empty cookie and proxy *)

(** C10. A cookie that is the empty string or absent reaches the extractor
    as [None], and so does a proxy; two requests that differ only in which
    of the two forms they use are handled identically. *)
Theorem empty_cookie_proxy_is_none (w : Env) (request : DownloadRequest) :
  (cookie request = Some "" \/ cookie request = None ->
   XHS.cookie (xhs_kwargs w request) = None)
  /\ (proxy request = Some "" \/ proxy request = None ->
      XHS.proxy (xhs_kwargs w request) = None)
  /\ (forall (other : DownloadRequest) (client_info : gmap string string) (tr : Trace),
        url other = url request ->
        image_download other = image_download request ->
        video_download other = video_download request ->
        live_download other = live_download request ->
        (cookie request = Some "" \/ cookie request = None) ->
        (cookie other = Some "" \/ cookie other = None) ->
        (proxy request = Some "" \/ proxy request = None) ->
        (proxy other = Some "" \/ proxy other = None) ->
        xhs_kwargs w other = xhs_kwargs w request
        /\ download_content w other client_info tr =
           download_content w request client_info tr).
Proof.
  split; [|split].
  - unfold xhs_kwargs; simpl. intros [-> | ->]; reflexivity.
  - unfold xhs_kwargs; simpl. intros [-> | ->]; reflexivity.
  - intros other client_info tr Hu Hi Hv Hl Hc Hc' Hp Hp'.
    assert (xhs_kwargs w other = xhs_kwargs w request) as Hk.
    { unfold xhs_kwargs. rewrite Hi, Hv, Hl.
      destruct Hc as [-> | ->], Hc' as [-> | ->], Hp as [-> | ->], Hp' as [-> | ->];
        reflexivity. }
    split; [exact Hk|]. apply download_content_reads; assumption.
Qed.

Lemma empty_cookie_proxy_is_none_witness :
  XHS.cookie (xhs_kwargs Sample.two_notes (DownloadRequest_defaults "https://xhslink.com/a")) = None
  /\ XHS.proxy (xhs_kwargs Sample.two_notes (DownloadRequest_defaults "https://xhslink.com/a")) = None.
Proof.
  split.
  - apply (proj1 (empty_cookie_proxy_is_none Sample.two_notes
                    (DownloadRequest_defaults "https://xhslink.com/a"))).
    left; reflexivity.
  - apply (proj1 (proj2 (empty_cookie_proxy_is_none Sample.two_notes
                    (DownloadRequest_defaults "https://xhslink.com/a")))).
    right; reflexivity.
Defined.

(** ** C4: errors of construction and extraction *)

(** An error of the constructor leaves before the session is entered. *)
Lemma init_error_escapes (w : Env) (request : DownloadRequest) (e : Exn) :
  XHS.init (xhs w) (xhs_kwargs w request) = Some e ->
  construct_and_extract w request [] = ([EvInit (xhs_kwargs w request)], Raise e).
Proof. intros H. unfold_handler; simpl. rewrite H. reflexivity. Qed.

(** An error of [extract] leaves the block after the exit hook has run,
    unless the hook swallows it or raises itself. *)
Lemma extract_error_escapes (w : Env) (request : DownloadRequest) (e : Exn) :
  XHS.init (xhs w) (xhs_kwargs w request) = None ->
  XHS.aenter (xhs w) (xhs_kwargs w request) = None ->
  XHS.extract (xhs w) (xhs_kwargs w request) (url request) true None = Raise e ->
  XHS.aexit (xhs w) (xhs_kwargs w request) (Some e) = Return false ->
  construct_and_extract w request [] =
  ([ EvInit (xhs_kwargs w request); EvEnter;
     EvExtract (url request) true None; EvExit (Some e) ], Raise e).
Proof.
  intros Hinit Henter Hext Hexit. unfold_handler; simpl.
  rewrite Hinit, Henter, Hext; simpl. rewrite Hexit. reflexivity.
Qed.

(** The errors that leave construction and the scoped extraction: that of
    the constructor, that of the entry hook, that of [extract] when the
    exit hook lets it pass, and that of the exit hook itself. *)
Lemma construct_and_extract_raises (w : Env) (request : DownloadRequest)
      (tr : Trace) (e : Exn) :
  construct_and_extract w request [] = (tr, Raise e) ->
  XHS.init (xhs w) (xhs_kwargs w request) = Some e
  \/ (XHS.init (xhs w) (xhs_kwargs w request) = None
      /\ XHS.aenter (xhs w) (xhs_kwargs w request) = Some e)
  \/ (XHS.init (xhs w) (xhs_kwargs w request) = None
      /\ XHS.aenter (xhs w) (xhs_kwargs w request) = None
      /\ ((XHS.extract (xhs w) (xhs_kwargs w request) (url request) true None = Raise e
           /\ XHS.aexit (xhs w) (xhs_kwargs w request) (Some e) = Return false)
          \/ (exists e0,
                XHS.extract (xhs w) (xhs_kwargs w request) (url request) true None
                  = Raise e0
                /\ XHS.aexit (xhs w) (xhs_kwargs w request) (Some e0) = Raise e)
          \/ (exists result,
                XHS.extract (xhs w) (xhs_kwargs w request) (url request) true None
                  = Return result
                /\ XHS.aexit (xhs w) (xhs_kwargs w request) None = Raise e))).
Proof.
  unfold_handler; simpl.
  destruct (XHS.init _ _) as [e0|]; simpl; [intros [= _ ->]; auto|].
  destruct (XHS.aenter _ _) as [e0|]; simpl; [intros [= _ ->]; auto|].
  intros H. right. right. split; [reflexivity|]. split; [reflexivity|].
  destruct (XHS.extract _ _ _ _ _) as [r|e0]; simpl in H.
  - destruct (XHS.aexit _ _ None) as [b|e1] eqn:Hx; simpl in H; [discriminate|].
    injection H as _ ->. right. right. eauto.
  - destruct (XHS.aexit _ _ (Some e0)) as [[]|e1] eqn:Hx; simpl in H;
      [discriminate| |].
    + injection H as _ ->. left. auto.
    + injection H as _ ->. right. left. eauto.
Qed.

(** C4, as the code has it.  When the module loads and construction or the
    scoped extraction ends by raising [e], the error that leaves the
    [async with] block: an [HTTPException] is re-raised to the framework;
    any other [Exception] is logged and folded into a returned response
    with [success=False], the message ["下载失败: " + str(e)] and no data; an
    error outside [Exception] is not caught.  That [e] is the error of the
    constructor, of the entry hook, of the exit hook, or of [extract] when
    the exit hook returns false on it. *)
Theorem extraction_error_folded (w : Env) (request : DownloadRequest)
        (client_info : gmap string string) (cid : string) (tr : Trace) (e : Exn) :
  client_info !! "client_id" = Some cid ->
  import_XHS w = None ->
  construct_and_extract w request [] = (tr, Raise e) ->
  (is_HTTPException e = true ->
   download_content w request client_info [] =
   (([request_line request cid; EvImportXHS] ++ tr)%list, Raise e))
  /\ (is_HTTPException e = false -> is_Exception e = true ->
      download_content w request client_info [] =
      (([request_line request cid; EvImportXHS] ++ tr ++ failure_lines w e)%list,
       Return {| success := false;
                 message := "下载失败: " +:+ exn_str e;
                 data := None |}))
  /\ (is_Exception e = false ->
      download_content w request client_info [] =
      (([request_line request cid; EvImportXHS] ++ tr)%list, Raise e))
  /\ (XHS.init (xhs w) (xhs_kwargs w request) = Some e
      \/ (XHS.init (xhs w) (xhs_kwargs w request) = None
          /\ XHS.aenter (xhs w) (xhs_kwargs w request) = Some e)
      \/ (XHS.init (xhs w) (xhs_kwargs w request) = None
          /\ XHS.aenter (xhs w) (xhs_kwargs w request) = None
          /\ ((XHS.extract (xhs w) (xhs_kwargs w request) (url request) true None
                 = Raise e
               /\ XHS.aexit (xhs w) (xhs_kwargs w request) (Some e) = Return false)
              \/ (exists e0,
                    XHS.extract (xhs w) (xhs_kwargs w request) (url request) true None
                      = Raise e0
                    /\ XHS.aexit (xhs w) (xhs_kwargs w request) (Some e0) = Raise e)
              \/ (exists result,
                    XHS.extract (xhs w) (xhs_kwargs w request) (url request) true None
                      = Return result
                    /\ XHS.aexit (xhs w) (xhs_kwargs w request) None = Raise e)))).
Proof.
  intros Hcid Himp Hrun.
  pose proof (construct_and_extract_raises w request tr e Hrun) as Hwhich.
  assert (is_Exception e = false -> is_HTTPException e = false) as Hbase.
  { unfold is_Exception, is_HTTPException. destruct (exn_class e); done. }
  assert (download_body w request client_info [] =
          (([request_line request cid; EvImportXHS] ++ tr)%list, Raise e)) as Hbody.
  { rewrite (download_body_loaded w request client_info cid Hcid Himp).
    unfold bind. rewrite construct_and_extract_frame, Hrun. reflexivity. }
  unfold download_content, try_except. rewrite Hbody.
  change (dispatch _ e _) with
    ((if is_HTTPException e then raise e
      else if is_Exception e
           then logger_error ("下载请求处理失败: " +:+ exn_str e) ;;
                logger_error ("错误堆栈: " +:+ format_exc w e) ;;
                ret (mkDownloadResponse false ("下载失败: " +:+ exn_str e) None)
           else raise e) ([request_line request cid; EvImportXHS] ++ tr)%list).
  split; [|split; [|split; [|exact Hwhich]]].
  - intros ->. reflexivity.
  - intros -> ->. unfold failure_lines, logger_error, emit, bind, ret.
    rewrite <- !app_assoc. reflexivity.
  - intros Hb. rewrite (Hbase Hb), Hb. reflexivity.
Qed.

Lemma extraction_error_folded_witness :
  download_content Sample.failing (DownloadRequest_defaults "https://xhslink.com/a")
    Sample.client [] =
  ([ request_line (DownloadRequest_defaults "https://xhslink.com/a") "tester";
     EvImportXHS;
     EvInit (xhs_kwargs Sample.failing (DownloadRequest_defaults "https://xhslink.com/a"));
     EvEnter; EvExtract "https://xhslink.com/a" true None;
     EvExit (Some (mkExn (OtherException "RuntimeError") "connection reset"));
     LogError "下载请求处理失败: connection reset";
     LogError "错误堆栈: Traceback (most recent call last): connection reset" ],
   Return {| success := false;
             message := "下载失败: connection reset";
             data := None |}).
Proof.
  apply (proj1 (proj2 (extraction_error_folded Sample.failing
           (DownloadRequest_defaults "https://xhslink.com/a") Sample.client "tester"
           [ EvInit (xhs_kwargs Sample.failing (DownloadRequest_defaults "https://xhslink.com/a"));
             EvEnter; EvExtract "https://xhslink.com/a" true None;
             EvExit (Some (mkExn (OtherException "RuntimeError") "connection reset")) ]
           (mkExn (OtherException "RuntimeError") "connection reset")
           eq_refl eq_refl eq_refl))); reflexivity.
Defined.

(** C4 as stated fails: the module loads and [extract] raises an
    [HTTPException], yet the handler returns no response at all; the
    exception reaches the framework, which answers with its status. *)
Lemma http_exception_not_folded :
  import_XHS Sample.upstream_502 = None
  /\ XHS.extract (xhs Sample.upstream_502)
       (xhs_kwargs Sample.upstream_502 (DownloadRequest_defaults "https://xhslink.com/a"))
       "https://xhslink.com/a" true None
     = Raise (mkExn (HTTPException 502) "502: Bad Gateway")
  /\ ~ (exists response,
          snd (download_content Sample.upstream_502
                 (DownloadRequest_defaults "https://xhslink.com/a") Sample.client [])
          = Return response /\ success response = false)
  /\ http_status (snd (download_content Sample.upstream_502
                         (DownloadRequest_defaults "https://xhslink.com/a")
                         Sample.client [])) = 502%Z.
Proof.
  split; [reflexivity|]. split; [reflexivity|]. split.
  - intros [response [H _]]. vm_compute in H. discriminate.
  - reflexivity.
Qed.

(** ** C6: the download module cannot be imported *)

(** C6, as the code has it.  When the import raises an [ImportError], the
    handler logs the detail and returns (an ordinary 200 response) the
    model with [success=False], a fixed message that carries none of the
    detail, and no data; no extractor is constructed. *)
Theorem import_error_response (w : Env) (request : DownloadRequest)
        (client_info : gmap string string) (cid : string) (e : Exn) :
  client_info !! "client_id" = Some cid ->
  import_XHS w = Some e ->
  is_ImportError e = true ->
  download_content w request client_info [] =
    ([ request_line request cid; EvImportXHS;
       LogError ("无法导入XHS类: " +:+ exn_str e) ],
     Return {| success := false;
               message := "系统错误：无法加载下载模块";
               data := None |})
  /\ http_status (snd (download_content w request client_info [])) = 200%Z
  /\ calls is_init (fst (download_content w request client_info [])) = 0.
Proof.
  intros Hcid Himp Hie.
  assert (download_content w request client_info [] =
    ([ request_line request cid; EvImportXHS;
       LogError ("无法导入XHS类: " +:+ exn_str e) ],
     Return {| success := false;
               message := "系统错误：无法加载下载模块";
               data := None |})) as Hrun.
  { unfold_handler; simpl. rewrite Hcid, Himp; simpl. rewrite Hie. reflexivity. }
  rewrite Hrun. repeat split.
Qed.

Lemma import_error_response_witness :
  http_status (snd (download_content Sample.no_module
                      (DownloadRequest_defaults "https://xhslink.com/a")
                      Sample.client [])) = 200%Z.
Proof.
  apply (import_error_response Sample.no_module
           (DownloadRequest_defaults "https://xhslink.com/a") Sample.client "tester"
           (mkExn ModuleNotFoundError "No module named 'source'"));
    reflexivity.
Defined.

(** C6 as stated fails: the module cannot be imported, and the answer is
    not in the 500 class. *)
Lemma import_error_not_500 :
  import_XHS Sample.no_module = Some (mkExn ModuleNotFoundError "No module named 'source'")
  /\ ~ (500 <= http_status (snd (download_content Sample.no_module
                                   (DownloadRequest_defaults "https://xhslink.com/a")
                                   Sample.client [])) < 600)%Z.
Proof.
  split; [reflexivity|]. vm_compute. intros [H _]. apply H. reflexivity.
Qed.

(** ** C1: a request with an empty url *)

(** C1, as the code has it.  The handler does not look at the url: with an
    empty url, once the module loads and the session is constructed and
    entered, the extractor has been constructed once and [extract] has been
    called once, with the empty string; and when [extract] then returns
    a falsy result and the exit hook of the session returns, the response
    is the no-content failure. *)
Theorem empty_url_is_extracted (w : Env) (request : DownloadRequest)
        (client_info : gmap string string) (cid : string) :
  url request = "" ->
  client_info !! "client_id" = Some cid ->
  import_XHS w = None ->
  XHS.init (xhs w) (xhs_kwargs w request) = None ->
  XHS.aenter (xhs w) (xhs_kwargs w request) = None ->
  calls is_init (fst (download_content w request client_info [])) = 1
  /\ calls is_extract (fst (download_content w request client_info [])) = 1
  /\ In (EvExtract "" true None) (fst (download_content w request client_info []))
  /\ (forall result swallow,
        XHS.extract (xhs w) (xhs_kwargs w request) "" true None = Return result ->
        truthy result = false ->
        XHS.aexit (xhs w) (xhs_kwargs w request) None = Return swallow ->
        snd (download_content w request client_info []) =
        Return {| success := false;
                  message := "下载失败：未获取到内容";
                  data := None |}).
Proof.
  intros Hurl Hcid Himp Hinit Henter.
  destruct (acquired_run w request client_info cid Hcid Himp Hinit Henter)
    as [post [Htr Hq]].
  rewrite Htr, !calls_app, !(calls_quiet _ post Hq) by (intros []; done).
  split; [reflexivity|]. split; [reflexivity|]. split.
  - rewrite Hurl. simpl. auto 10.
  - intros result swallow Hext Hfalse Hexit.
    unfold download_content, try_except.
    rewrite (download_body_loaded w request client_info cid Hcid Himp).
    unfold_handler; simpl. rewrite Hinit, Henter, Hurl, Hext; simpl.
    rewrite Hexit; simpl. rewrite Hfalse. reflexivity.
Qed.

Lemma empty_url_is_extracted_witness :
  calls is_extract
    (fst (download_content Sample.nothing (DownloadRequest_defaults "") Sample.client [])) = 1.
Proof.
  apply (empty_url_is_extracted Sample.nothing (DownloadRequest_defaults "")
           Sample.client "tester"); reflexivity.
Defined.

(** C1 as stated fails: the url is empty and the response does say
    [success=False], but the extractor has been constructed and [extract]
    has been called with the empty url. *)
Lemma empty_url_not_rejected :
  url (DownloadRequest_defaults "") = ""
  /\ In (EvExtract "" true None)
        (fst (download_content Sample.nothing (DownloadRequest_defaults "")
                Sample.client []))
  /\ ~ ((exists response,
           snd (download_content Sample.nothing (DownloadRequest_defaults "")
                  Sample.client []) = Return response
           /\ success response = false)
        /\ calls is_init
             (fst (download_content Sample.nothing (DownloadRequest_defaults "")
                     Sample.client [])) = 0
        /\ calls is_extract
             (fst (download_content Sample.nothing (DownloadRequest_defaults "")
                     Sample.client [])) = 0).
Proof.
  split; [reflexivity|]. split.
  - vm_compute. auto 10.
  - intros [_ [H _]]. vm_compute in H. discriminate.
Qed.

(** ** C5: choosing the configuration *)

Ltac unfold_config :=
  unfold module_body, resolve_config, load_config, try_except, getitem,
    emit, completes, yields, bind, ret, raise.

(** The fallback at work: the production branch stops with an
    [ImportError] and the simple provider loads. *)
Lemma simple_fallback_run (h : Host) (e : Exn)
      (api : ApiConfig) (env : PyDict) :
  snd (load_config Production (production_config h) "✅ 使用生产环境配置" []) = Raise e ->
  is_ImportError e = true ->
  Config.import_module (simple_config h) = None ->
  Config.setup_environment (simple_config h) = None ->
  Config.get_config (simple_config h) = Return api ->
  Config.get_environment_info (simple_config h) = Return env ->
  snd (resolve_config h []) = Return (api, env)
  /\ In (EvSetupEnvironment Simple) (fst (resolve_config h []))
  /\ (Config.import_module (production_config h) <> None ->
      fst (resolve_config h []) =
        [ EvImportConfig Production; EvImportConfig Simple;
          EvSetupEnvironment Simple; EvGetConfig Simple;
          EvGetEnvironmentInfo Simple; EvPrint "⚠️ 使用简单环境配置" ])
  /\ (forall debug, dict_get env "debug" = Some debug ->
      exists g, snd (module_body h []) = Return g
                /\ api_config g = api /\ env_config g = env
                /\ fst (module_body h []) = fst (resolve_config h [])).
Proof.
  intros Hraise Hie Himp Hsetup Hcfg Henv.
  assert (exists tr, resolve_config h [] =
            ((tr ++ [ EvImportConfig Simple; EvSetupEnvironment Simple;
                      EvGetConfig Simple; EvGetEnvironmentInfo Simple;
                      EvPrint "⚠️ 使用简单环境配置" ])%list, Return (api, env))
          /\ (Config.import_module (production_config h) <> None ->
              tr = [EvImportConfig Production])) as [tr [Hrun Htr]].
  { revert Hraise. unfold_config; simpl.
    destruct (Config.import_module (production_config h)) as [e0|]; simpl.
    - intros [= ->]. rewrite Hie, Himp, Hsetup, Hcfg, Henv; simpl.
      exists [EvImportConfig Production]. auto.
    - destruct (Config.setup_environment (production_config h)) as [e0|]; simpl.
      + intros [= ->]. rewrite Hie, Himp, Hsetup, Hcfg, Henv; simpl.
        eexists [_; _]. split; [reflexivity|congruence].
      + destruct (Config.get_config (production_config h)) as [c0|e0]; simpl.
        * destruct (Config.get_environment_info (production_config h)) as [i0|e0];
            simpl; [discriminate|].
          intros [= ->]. rewrite Hie, Himp, Hsetup, Hcfg, Henv; simpl.
          eexists [_; _; _; _]. split; [reflexivity|congruence].
        * intros [= ->]. rewrite Hie, Himp, Hsetup, Hcfg, Henv; simpl.
          eexists [_; _; _]. split; [reflexivity|congruence]. }
  rewrite Hrun. simpl. split; [reflexivity|]. split.
  - apply in_app_iff. right. simpl. auto.
  - split.
    + intros Hne. rewrite (Htr Hne). reflexivity.
    + intros debug Hdebug.
      assert (exists g, module_body h [] = (fst (resolve_config h []), Return g)
                        /\ api_config g = api /\ env_config g = env)
        as [g [Hbody [Hapi Henv']]].
      { unfold module_body, bind. rewrite Hrun.
        unfold getitem, ret. simpl. rewrite Hdebug.
        eexists. split; [reflexivity|]. split; reflexivity. }
      exists g. rewrite Hbody, Hrun. auto.
Qed.

(** The production branch never touches the simple provider. *)
Lemma production_branch_trace (c : Config.provider) (banner : string) :
  ~ In (EvImportConfig Simple) (fst (load_config Production c banner []))
  /\ ~ In (EvSetupEnvironment Simple) (fst (load_config Production c banner [])).
Proof.
  unfold load_config, emit, completes, yields, bind, ret, raise; simpl.
  repeat (case_match; simplify_eq/=);
    (split; intros Hin; in_cases Hin).
Qed.

(** Without an [ImportError] there is no fallback: any other error of the
    production branch ends the configuration [try] and the module body. *)
Lemma no_fallback_run (h : Host) (e : Exn) :
  snd (load_config Production (production_config h) "✅ 使用生产环境配置" []) = Raise e ->
  is_ImportError e = false ->
  resolve_config h [] =
    (fst (load_config Production (production_config h) "✅ 使用生产环境配置" []), Raise e)
  /\ module_body h [] =
    (fst (load_config Production (production_config h) "✅ 使用生产环境配置" []), Raise e).
Proof.
  intros Hraise Hie.
  assert (resolve_config h [] =
          (fst (load_config Production (production_config h) "✅ 使用生产环境配置" []),
           Raise e)) as Hres.
  { unfold resolve_config, try_except.
    destruct (load_config Production _ _ []) as [tr o]. simpl in Hraise. subst o.
    simpl. rewrite Hie. reflexivity. }
  split; [exact Hres|]. unfold module_body, bind. rewrite Hres. reflexivity.
Qed.

(** C5, as the code has it.  When the production branch stops with an
    error [e].  If [e] is an [ImportError] and the simple provider loads,
    the configuration in force is the simple provider's, whose set-up has
    run; when it is the import of the production provider that failed, the
    production set-up has not run; and the module body goes on to build the
    application as soon as the environment information has its ["debug"]
    entry.  If [e] is no [ImportError], there is no fallback: the
    configuration [try] and the module body stop with [e], and the simple
    provider is neither imported nor set up. *)
Theorem config_fallback_on_import_error (h : Host) (e : Exn) :
  snd (load_config Production (production_config h) "✅ 使用生产环境配置" []) = Raise e ->
  (is_ImportError e = true ->
   forall (api : ApiConfig) (env : PyDict),
     Config.import_module (simple_config h) = None ->
     Config.setup_environment (simple_config h) = None ->
     Config.get_config (simple_config h) = Return api ->
     Config.get_environment_info (simple_config h) = Return env ->
     snd (resolve_config h []) = Return (api, env)
     /\ In (EvSetupEnvironment Simple) (fst (resolve_config h []))
     /\ (Config.import_module (production_config h) <> None ->
         fst (resolve_config h []) =
           [ EvImportConfig Production; EvImportConfig Simple;
             EvSetupEnvironment Simple; EvGetConfig Simple;
             EvGetEnvironmentInfo Simple; EvPrint "⚠️ 使用简单环境配置" ])
     /\ (forall debug, dict_get env "debug" = Some debug ->
         exists g, snd (module_body h []) = Return g
                   /\ api_config g = api /\ env_config g = env
                   /\ fst (module_body h []) = fst (resolve_config h [])))
  /\ (is_ImportError e = false ->
      snd (resolve_config h []) = Raise e
      /\ snd (module_body h []) = Raise e
      /\ ~ In (EvImportConfig Simple) (fst (module_body h []))
      /\ ~ In (EvSetupEnvironment Simple) (fst (module_body h []))).
Proof.
  intros Hraise. split.
  - intros Hie api env Himp Hsetup Hcfg Henv.
    exact (simple_fallback_run h e api env Hraise Hie Himp Hsetup Hcfg Henv).
  - intros Hie.
    destruct (no_fallback_run h e Hraise Hie) as [Hres Hbody].
    rewrite Hres, Hbody. simpl.
    destruct (production_branch_trace (production_config h) "✅ 使用生产环境配置")
      as [Hi Hs].
    auto.
Qed.

Lemma config_fallback_on_import_error_witness :
  snd (resolve_config Sample.production_missing []) =
  Return (Sample.simple_settings, Sample.simple_environment).
Proof.
  apply (proj1 (config_fallback_on_import_error Sample.production_missing
                  (mkExn ModuleNotFoundError "No module named 'config.production_config'")
                  eq_refl)
               eq_refl Sample.simple_settings Sample.simple_environment);
    reflexivity.
Defined.

(** C5 as stated fails: the production provider's set-up raises on its
    data, the simple provider would load, and still the module body stops
    with that error without ever touching the simple provider. *)
Lemma malformed_production_no_fallback :
  Config.setup_environment (production_config Sample.production_malformed) =
    Some (mkExn (OtherException "ValueError") "invalid production settings")
  /\ ~ In (EvSetupEnvironment Simple) (fst (resolve_config Sample.production_malformed []))
  /\ ~ (exists cfg, snd (resolve_config Sample.production_malformed []) = Return cfg)
  /\ ~ (exists g, snd (module_body Sample.production_malformed []) = Return g).
Proof.
  split; [reflexivity|]. split; [|split].
  - vm_compute. intuition discriminate.
  - intros [cfg H]. vm_compute in H. discriminate.
  - intros [g H]. vm_compute in H. discriminate.
Qed.

(** ** The start-up hook *)

(** A [mkdir_exist_ok] that goes through leaves a directory at [p] and
    changes nothing else. *)
Lemma mkdir_creatable (p : Path) (s : System) :
  creatable (nodes s) (refusals s) p = true ->
  mkdir_exist_ok p s =
  ({| nodes := <[p := Dir]> (nodes s); refusals := refusals s; log := log s |},
   Return tt).
Proof.
  unfold creatable, mkdir_exist_ok. destruct s as [m r l]; simpl.
  destruct (m !! p) as [[]|] eqn:Hp; try discriminate.
  - intros _. rewrite (insert_id m p Dir Hp). reflexivity.
  - destruct (m !! path_parent p) as [[]|]; try discriminate.
    destruct (r !! p); [discriminate|reflexivity].
Qed.

(** One that does not raises an [OSError] and changes nothing. *)
Lemma mkdir_refused (p : Path) (s : System) :
  creatable (nodes s) (refusals s) p = false ->
  exists e, mkdir_exist_ok p s = (s, Raise e) /\ is_OSError e = true.
Proof.
  unfold creatable, mkdir_exist_ok.
  destruct (nodes s !! p) as [[]|]; try discriminate; [eauto|].
  destruct (nodes s !! path_parent p) as [[]|]; eauto.
  destruct (refusals s !! p) as [[]|]; [eauto ..|discriminate].
Qed.

(** On an existing directory the call is a no-op. *)
Lemma mkdir_existing (p : Path) (s : System) :
  nodes s !! p = Some Dir -> mkdir_exist_ok p s = (s, Return tt).
Proof. intros H. unfold mkdir_exist_ok. rewrite H. reflexivity. Qed.

Lemma insert_keeps_dir (m : gmap Path Node) (p q : Path) :
  m !! q = Some Dir -> <[p := Dir]> m !! q = Some Dir.
Proof.
  intros H. destruct (decide (p = q)) as [->|Hne].
  - apply lookup_insert_eq.
  - rewrite lookup_insert_ne; assumption.
Qed.

Lemma creatable_existing (m : gmap Path Node) (r : gmap Path Refusal) (p : Path) :
  m !! p = Some Dir -> creatable m r p = true.
Proof. intros H. unfold creatable. rewrite H. reflexivity. Qed.

(** Directories stay directories. *)
Lemma make_all_keeps_dir (r : gmap Path Refusal) (ps : list Path)
      (m : gmap Path Node) (q : Path) :
  m !! q = Some Dir -> make_all r ps m !! q = Some Dir.
Proof.
  revert m. induction ps as [|p ps IH]; intros m H; simpl; [exact H|].
  destruct (creatable m r p); [|exact H].
  apply IH, insert_keeps_dir, H.
Qed.

(** Making the directories a second time changes nothing. *)
Lemma make_all_idempotent (r : gmap Path Refusal) (ps : list Path)
      (m : gmap Path Node) :
  make_all r ps (make_all r ps m) = make_all r ps m.
Proof.
  revert m. induction ps as [|p ps IH]; intros m; simpl; [reflexivity|].
  destruct (creatable m r p) eqn:Hc; simpl; [|rewrite Hc; reflexivity].
  assert (make_all r ps (<[p := Dir]> m) !! p = Some Dir) as Hp
    by apply make_all_keeps_dir, lookup_insert_eq.
  rewrite (creatable_existing _ r p Hp), (insert_id _ p Dir Hp).
  apply IH.
Qed.

Section StartupFacts.
Variable h : Host.
Variable g : Globals.
Variable root : Path.
Variable traceback_format_exc : Exn -> string.

Lemma mkdir_log_ok (p : Path) (msg : string) (k : M System unit) (s : System) :
  creatable (nodes s) (refusals s) p = true ->
  (mkdir_exist_ok p ;; on_log (logger_info msg) ;; k) s =
  k {| nodes := <[p := Dir]> (nodes s); refusals := refusals s;
       log := (log s ++ [LogInfo msg])%list |}.
Proof.
  intros Hc. unfold bind at 1. rewrite (mkdir_creatable p s Hc). reflexivity.
Qed.

Lemma mkdir_log_last (p : Path) (msg : string) (s : System) :
  creatable (nodes s) (refusals s) p = true ->
  (mkdir_exist_ok p ;; on_log (logger_info msg)) s =
  ({| nodes := <[p := Dir]> (nodes s); refusals := refusals s;
      log := (log s ++ [LogInfo msg])%list |}, Return tt).
Proof.
  intros Hc. unfold bind at 1. rewrite (mkdir_creatable p s Hc). reflexivity.
Qed.

Lemma mkdir_log_refused (p : Path) (k : unit -> M System unit) (s : System) :
  creatable (nodes s) (refusals s) p = false ->
  exists e, bind (mkdir_exist_ok p) k s = (s, Raise e) /\ is_OSError e = true.
Proof.
  intros Hc. destruct (mkdir_refused p s Hc) as [e [H He]].
  exists e. unfold bind. rewrite H. auto.
Qed.

(** The four [mkdir] calls: the filesystem afterwards, the lines logged,
    and when the sequence completes. *)
Lemma ensure_directories_run (s : System) :
  exists tr o,
    ensure_directories root s =
      ({| nodes := make_all (refusals s) (storage_dirs root) (nodes s);
          refusals := refusals s;
          log := (log s ++ tr)%list |}, o)
    /\ (forall e, o = Raise e -> is_OSError e = true)
    /\ (o = Return tt ->
        forall p, In p (storage_dirs root) ->
          make_all (refusals s) (storage_dirs root) (nodes s) !! p = Some Dir)
    /\ ((forall p, In p (storage_dirs root) -> nodes s !! p = Some Dir) ->
        o = Return tt).
Proof.
  destruct s as [m r l]. unfold ensure_directories, storage_dirs. simpl make_all.
  cbn [nodes refusals log].
  destruct (creatable m r (path_div root "downloads")) eqn:C1.
  2:{ cbv zeta.
      match goal with |- context [bind (mkdir_exist_ok ?p) ?k ?s] =>
        destruct (mkdir_log_refused p k s C1) as [e [He Hos]] end.
      exists [], (Raise e). rewrite He, app_nil_r.
      split; [reflexivity|]. split; [intros ? [= <-]; exact Hos|].
      split; [discriminate|].
      intros Hall. rewrite (creatable_existing m r _ (Hall _ (or_introl eq_refl))) in C1.
      discriminate. }
  cbv zeta. rewrite mkdir_log_ok by exact C1. cbn [nodes refusals log].
  destruct (creatable (<[path_div root "downloads" := Dir]> m) r
              (path_div root "temp")) eqn:C2.
  2:{ match goal with |- context [bind (mkdir_exist_ok ?p) ?k ?s] =>
        destruct (mkdir_log_refused p k s C2) as [e [He Hos]] end.
      eexists [_], (Raise e). rewrite He.
      split; [reflexivity|]. split; [intros ? [= <-]; exact Hos|].
      split; [discriminate|].
      intros Hall.
      rewrite (creatable_existing _ r _
                 (insert_keeps_dir m _ _ (Hall _ (or_intror (or_introl eq_refl))))) in C2.
      discriminate. }
  rewrite mkdir_log_ok by exact C2. cbn [nodes refusals log].
  match goal with |- context [bind (mkdir_exist_ok ?p) _ (mkSystem ?m' _ _)] =>
    destruct (creatable m' r p) eqn:C3 end.
  2:{ match goal with |- context [bind (mkdir_exist_ok ?p) ?k ?s] =>
        destruct (mkdir_log_refused p k s C3) as [e [He Hos]] end.
      eexists [_; _], (Raise e). rewrite He, <- app_assoc.
      split; [reflexivity|]. split; [intros ? [= <-]; exact Hos|].
      split; [discriminate|].
      intros Hall.
      rewrite (creatable_existing _ r _
                 (insert_keeps_dir _ _ _ (insert_keeps_dir m _ _
                    (Hall _ (or_intror (or_intror (or_introl eq_refl))))))) in C3.
      discriminate. }
  rewrite mkdir_log_ok by exact C3. cbn [nodes refusals log].
  match goal with |- context [bind (mkdir_exist_ok ?p) _ (mkSystem ?m' _ _)] =>
    destruct (creatable m' r p) eqn:C4 end.
  2:{ match goal with |- context [bind (mkdir_exist_ok ?p) ?k ?s] =>
        destruct (mkdir_log_refused p k s C4) as [e [He Hos]] end.
      eexists [_; _; _], (Raise e). rewrite He, <- !app_assoc.
      split; [reflexivity|]. split; [intros ? [= <-]; exact Hos|].
      split; [discriminate|].
      intros Hall.
      rewrite (creatable_existing _ r _
                 (insert_keeps_dir _ _ _ (insert_keeps_dir _ _ _ (insert_keeps_dir m _ _
                    (Hall _ (or_intror (or_intror (or_intror (or_introl eq_refl))))))))) in C4.
      discriminate. }
  rewrite mkdir_log_last by exact C4. cbn [nodes refusals log].
  eexists [_; _; _; _], (Return tt). rewrite <- !app_assoc.
  split; [reflexivity|]. split; [discriminate|]. split; [|reflexivity].
  intros _ p Hp. in_cases Hp; subst p;
    repeat (first [ apply lookup_insert_eq | apply insert_keeps_dir ]).
Qed.

(** The start-up report touches the log only; it stops with a [KeyError]
    when an entry is missing from the environment information, and whether
    it does is the same in every state. *)
Lemma log_startup_info_run (s : System) :
  exists tr o,
    log_startup_info h g s =
      ({| nodes := nodes s; refusals := refusals s; log := (log s ++ tr)%list |}, o)
    /\ (forall e, o = Raise e -> exn_class e = KeyError)
    /\ (forall s', snd (log_startup_info h g s') = o).
Proof.
  unfold log_startup_info, on_log, getitem, logger_info, emit, bind, ret, raise.
  simpl.
  destruct (dict_get (env_config g) "environment"); simpl.
  2:{ eexists [_], _. split; [reflexivity|].
      split; [intros ? [= <-]; reflexivity|reflexivity]. }
  destruct (dict_get (env_config g) "api_enabled"); simpl.
  2:{ eexists [_; _], _. rewrite <- !app_assoc. split; [reflexivity|].
      split; [intros ? [= <-]; reflexivity|reflexivity]. }
  destruct (dict_get (env_config g) "port"); simpl.
  2:{ eexists [_; _; _], _. rewrite <- !app_assoc. split; [reflexivity|].
      split; [intros ? [= <-]; reflexivity|reflexivity]. }
  eexists [_; _; _; _; _], _. rewrite <- !app_assoc. split; [reflexivity|].
  split; [discriminate|reflexivity].
Qed.

Lemma OSError_is_Exception (e : Exn) : is_OSError e = true -> is_Exception e = true.
Proof. unfold is_OSError, is_Exception. destruct (exn_class e); done. Qed.

Lemma KeyError_is_Exception (e : Exn) : exn_class e = KeyError -> is_Exception e = true.
Proof. unfold is_Exception. intros ->. reflexivity. Qed.

(** The body of the [try]: the filesystem afterwards, and the errors it can
    stop with. *)
Lemma startup_body_run (s : System) :
  exists tr o,
    startup_body h g root s =
      ({| nodes := make_all (refusals s) (storage_dirs root) (nodes s);
          refusals := refusals s;
          log := (log s ++ tr)%list |}, o)
    /\ (forall e, o = Raise e -> is_Exception e = true)
    /\ (o = Return tt ->
        (forall p, In p (storage_dirs root) ->
           make_all (refusals s) (storage_dirs root) (nodes s) !! p = Some Dir)
        /\ forall s', snd (log_startup_info h g s') = Return tt)
    /\ ((forall p, In p (storage_dirs root) -> nodes s !! p = Some Dir) ->
        (forall s', snd (log_startup_info h g s') = Return tt) ->
        o = Return tt).
Proof.
  destruct (ensure_directories_run s) as [tr1 [o1 [H1 [He1 [Hok1 Hall1]]]]].
  unfold startup_body, bind. rewrite H1.
  destruct o1 as [[]|e1].
  - match goal with |- context [log_startup_info h g ?s1] =>
      destruct (log_startup_info_run s1) as [tr2 [o2 [H2 [He2 Hsame]]]] end.
    rewrite H2. cbn [nodes refusals log].
    exists (tr1 ++ tr2)%list, o2. rewrite <- app_assoc.
    split; [reflexivity|].
    split; [intros e ->; apply KeyError_is_Exception, He2; reflexivity|].
    split.
    + intros ->. split; [apply Hok1; reflexivity|exact Hsame].
    + intros _ Hinfo. rewrite <- (Hsame s). apply Hinfo.
  - exists tr1, (Raise e1).
    split; [reflexivity|].
    split; [intros e [= <-]; apply OSError_is_Exception, He1; reflexivity|].
    split; [discriminate|].
    intros Hall _. specialize (Hall1 Hall). discriminate.
Qed.

(** The hook: it always returns, it leaves the filesystem as its body did,
    and an error of the body ends up in the log. *)
Lemma startup_event_run (s : System) :
  snd (startup_event h g root traceback_format_exc s) = Return tt
  /\ nodes (fst (startup_event h g root traceback_format_exc s)) =
     make_all (refusals s) (storage_dirs root) (nodes s)
  /\ refusals (fst (startup_event h g root traceback_format_exc s)) = refusals s
  /\ (forall s' e,
        startup_body h g root s = (s', Raise e) ->
        fst (startup_event h g root traceback_format_exc s) =
        {| nodes := nodes s'; refusals := refusals s';
           log := (log s' ++ startup_failure_lines traceback_format_exc e)%list |})
  /\ (snd (startup_body h g root s) = Return tt ->
      startup_event h g root traceback_format_exc s = startup_body h g root s).
Proof.
  destruct (startup_body_run s) as [tr [o [H [He _]]]].
  unfold startup_event, try_except. rewrite H.
  destruct o as [[]|e]; simpl.
  - repeat split; auto. intros s' e' [=].
  - rewrite (He e eq_refl).
    unfold on_log, logger_error, emit, bind, ret; simpl.
    repeat split; auto.
    + intros s' e' [= <- <-]. simpl. rewrite <- app_assoc. reflexivity.
    + discriminate.
Qed.
End StartupFacts.

Section StartupClaims.
Variable h : Host.
Variable g : Globals.
Variable root : Path.
Variable traceback_format_exc : Exn -> string.

(** When a storage directory is still missing after the [mkdir] calls, the
    body has stopped with the [OSError] of the call that failed. *)
Lemma startup_body_fs_failure (s : System) (p : Path) :
  In p (storage_dirs root) ->
  make_all (refusals s) (storage_dirs root) (nodes s) !! p <> Some Dir ->
  exists s' e, startup_body h g root s = (s', Raise e) /\ is_OSError e = true.
Proof.
  intros Hin Hmissing.
  destruct (ensure_directories_run root s) as [tr [o [H [He [Hok _]]]]].
  unfold startup_body, bind. rewrite H.
  destruct o as [[]|e].
  - destruct Hmissing. apply Hok; [reflexivity|exact Hin].
  - eexists _, e. split; [reflexivity|]. apply He. reflexivity.
Qed.

(** ** C7: the bootstrap is idempotent *)

(** C7. Running the start-up hook a second time leaves the filesystem as the
    first run left it, and the second run returns; [mkdir(exist_ok=True)]
    on a directory that exists changes nothing and raises nothing; and when
    the first run went through without an error, the four storage
    directories exist and the second run goes through without an error
    too. *)
Theorem startup_idempotent (s : System) :
  nodes (fst (startup_event h g root traceback_format_exc
                (fst (startup_event h g root traceback_format_exc s)))) =
  nodes (fst (startup_event h g root traceback_format_exc s))
  /\ snd (startup_event h g root traceback_format_exc
            (fst (startup_event h g root traceback_format_exc s))) = Return tt
  /\ (forall p, nodes s !! p = Some Dir -> mkdir_exist_ok p s = (s, Return tt))
  /\ (snd (startup_body h g root s) = Return tt ->
      (forall p, In p (storage_dirs root) ->
         nodes (fst (startup_event h g root traceback_format_exc s)) !! p = Some Dir)
      /\ snd (startup_body h g root
                (fst (startup_event h g root traceback_format_exc s))) = Return tt).
Proof.
  destruct (startup_event_run h g root traceback_format_exc s)
    as [_ [Hn1 [Hr1 [_ Hsame]]]].
  destruct (startup_event_run h g root traceback_format_exc
              (fst (startup_event h g root traceback_format_exc s)))
    as [Hret2 [Hn2 _]].
  split; [|split; [exact Hret2|split; [intros p Hp; apply mkdir_existing, Hp|]]].
  - rewrite Hn2, Hr1, Hn1. apply make_all_idempotent.
  - intros Hok.
    destruct (startup_body_run h g root s) as [tr [o [H [_ [Hdirs _]]]]].
    rewrite H in Hok. simpl in Hok. subst o.
    destruct (Hdirs eq_refl) as [Hall Hinfo].
    split; [intros p Hp; rewrite Hn1; apply Hall, Hp|].
    destruct (startup_body_run h g root
                (fst (startup_event h g root traceback_format_exc s)))
      as [tr2 [o2 [H2 [_ [_ Hagain]]]]].
    rewrite H2. simpl. apply Hagain; [|exact Hinfo].
    intros p Hp. rewrite Hn1. apply Hall, Hp.
Qed.

(** ** C8: a failing bootstrap does not stop the service *)

(** C8. The start-up hook returns whatever the filesystem does; an error
    that stops its body is written to the log; and when a storage directory
    is missing afterwards, the log holds the [OSError] of the call that
    failed. *)
Theorem startup_failure_not_fatal (s : System) :
  snd (startup_event h g root traceback_format_exc s) = Return tt
  /\ (forall s' e,
        startup_body h g root s = (s', Raise e) ->
        log (fst (startup_event h g root traceback_format_exc s)) =
        (log s' ++ startup_failure_lines traceback_format_exc e)%list)
  /\ (forall p,
        In p (storage_dirs root) ->
        nodes (fst (startup_event h g root traceback_format_exc s)) !! p <> Some Dir ->
        exists e,
          is_OSError e = true
          /\ In (LogError ("❌ API服务器启动失败: " +:+ exn_str e))
                (log (fst (startup_event h g root traceback_format_exc s)))).
Proof.
  destruct (startup_event_run h g root traceback_format_exc s)
    as [Hret [Hn [_ [Hlog _]]]].
  split; [exact Hret|]. split.
  - intros s' e Hbody. rewrite (Hlog s' e Hbody). reflexivity.
  - intros p Hp Hmissing. rewrite Hn in Hmissing.
    destruct (startup_body_fs_failure s p Hp Hmissing) as [s' [e [Hbody He]]].
    exists e. split; [exact He|].
    rewrite (Hlog s' e Hbody). simpl. apply in_app_iff. right. simpl. auto.
Qed.
End StartupClaims.

Lemma startup_idempotent_witness :
  snd (startup_body (Sample.host (Sample.provider Sample.simple_settings Sample.simple_environment))
         Sample.globals ["app"]
         (fst (startup_event
                 (Sample.host (Sample.provider Sample.simple_settings Sample.simple_environment))
                 Sample.globals ["app"] (fun e => exn_str e) Sample.fresh))) = Return tt.
Proof.
  apply (startup_idempotent
           (Sample.host (Sample.provider Sample.simple_settings Sample.simple_environment))
           Sample.globals ["app"] (fun e => exn_str e) Sample.fresh).
  vm_compute. reflexivity.
Defined.

Lemma startup_failure_not_fatal_witness :
  exists e,
    is_OSError e = true
    /\ In (LogError ("❌ API服务器启动失败: " +:+ exn_str e))
          (log (fst (startup_event
                       (Sample.host (Sample.provider Sample.simple_settings
                                                     Sample.simple_environment))
                       Sample.globals ["app"] (fun e => exn_str e)
                       Sample.temp_refused))).
Proof.
  apply (proj2 (proj2 (startup_failure_not_fatal
           (Sample.host (Sample.provider Sample.simple_settings Sample.simple_environment))
           Sample.globals ["app"] (fun e => exn_str e) Sample.temp_refused))
           ["app"; "temp"]).
  - simpl. auto.
  - vm_compute. discriminate.
Defined.

(** * Further properties of the handler *)

Section HandlerMore.
Variable w : Env.
Variable request : DownloadRequest.
Variable client_info : gmap string string.

(** What the result mapping returns: the no-content failure, or the success
    built from a truthy bound result. *)
Lemma map_result_returns (bound : option PyVal) (tr tr' : Trace)
      (response : DownloadResponse) :
  map_result w request bound tr = (tr', Return response) ->
  (success response = false /\ data response = None)
  \/ (exists result n now,
        bound = Some result /\ truthy result = true
        /\ response =
           {| success := true;
              message := "下载成功完成";
              data := Some [ ("url", PStr (url request));
                             ("status", PStr "completed");
                             ("message", PStr "下载完成");
                             ("result_count", PInt n);
                             ("results", result);
                             ("timestamp", PStr now) ] |}).
Proof.
  unfold map_result, datetime_now_isoformat, py_len, bind, ret, raise.
  destruct bound as [result|]; [|discriminate].
  destruct (truthy result) eqn:Ht.
  - destruct result; simpl; try discriminate;
      intros [= <- <-]; right; eexists _, _, _; eauto.
  - intros [= <- <-]. left. auto.
Qed.

(** The block binds [result] only to what [extract] returned. *)
Lemma construct_and_extract_bound (tr : Trace) (result : PyVal) :
  snd (construct_and_extract w request tr) = Return (Some result) ->
  XHS.extract (xhs w) (xhs_kwargs w request) (url request) true None = Return result.
Proof.
  unfold_handler; simpl.
  destruct (XHS.init _ _); simpl; [discriminate|].
  destruct (XHS.aenter _ _); simpl; [discriminate|].
  destruct (XHS.extract _ _ _ _ _) as [r|e]; simpl.
  - destruct (XHS.aexit _ _ None); simpl; [|discriminate].
    intros [= ->]. reflexivity.
  - destruct (XHS.aexit _ _ (Some e)) as [[]|]; simpl; discriminate.
Qed.

(** What the body of the outer [try] returns. *)
Lemma download_body_returns (tr : Trace) (response : DownloadResponse) :
  download_body w request client_info [] = (tr, Return response) ->
  (success response = false /\ data response = None)
  \/ (exists result n now,
        XHS.extract (xhs w) (xhs_kwargs w request) (url request) true None
          = Return result
        /\ truthy result = true
        /\ response =
           {| success := true;
              message := "下载成功完成";
              data := Some [ ("url", PStr (url request));
                             ("status", PStr "completed");
                             ("message", PStr "下载完成");
                             ("result_count", PInt n);
                             ("results", result);
                             ("timestamp", PStr now) ] |}).
Proof.
  destruct (client_info !! "client_id") as [cid|] eqn:Hcid.
  - destruct (import_XHS w) as [e|] eqn:Himp.
    + unfold download_body, client_id_of. rewrite Hcid, Himp.
      unfold try_except, bind, logger_info, logger_error, emit, ret, raise; simpl.
      destruct (is_ImportError e); simpl; [|discriminate].
      intros [= <- <-]. left. auto.
    + rewrite (download_body_loaded w request client_info cid Hcid Himp).
      unfold bind.
      destruct (construct_and_extract w request _) as [tr1 [bound|e]] eqn:Hrun;
        [|discriminate].
      intros Hmap. apply map_result_returns in Hmap.
      destruct Hmap as [Hfail | [result [n [now [-> [Ht ->]]]]]]; [left; exact Hfail|].
      right. exists result, n, now. split; [|auto].
      apply (construct_and_extract_bound [request_line request cid; EvImportXHS]).
      rewrite Hrun. reflexivity.
  - unfold download_body, client_id_of. rewrite Hcid. discriminate.
Qed.

(** The outer [try] with its two clauses, on a finished body. *)
Lemma outer_try_outcome (tr : Trace) (e : Exn) :
  dispatch
    [ (is_HTTPException, fun e => raise e);
      (is_Exception, fun e =>
         logger_error ("下载请求处理失败: " +:+ exn_str e) ;;
         logger_error ("错误堆栈: " +:+ format_exc w e) ;;
         ret (mkDownloadResponse false ("下载失败: " +:+ exn_str e) None)) ]
    e tr =
  if is_HTTPException e then (tr, Raise e)
  else if is_Exception e
       then ((tr ++ failure_lines w e)%list,
             Return (mkDownloadResponse false ("下载失败: " +:+ exn_str e) None))
       else (tr, Raise e).
Proof.
  simpl. destruct (is_HTTPException e); [reflexivity|].
  destruct (is_Exception e); [|reflexivity].
  unfold failure_lines, logger_error, emit, bind, ret; simpl.
  rewrite <- app_assoc. reflexivity.
Qed.

(** An error of the body that the [except Exception] clause takes. *)
Lemma body_error_folded (tr : Trace) (e : Exn) :
  download_body w request client_info [] = (tr, Raise e) ->
  is_HTTPException e = false ->
  is_Exception e = true ->
  download_content w request client_info [] =
  ((tr ++ failure_lines w e)%list,
   Return {| success := false;
             message := "下载失败: " +:+ exn_str e;
             data := None |}).
Proof.
  intros Hbody Hh He. unfold download_content, try_except.
  rewrite Hbody, outer_try_outcome, Hh, He. reflexivity.
Qed.
End HandlerMore.

(** X1. No [Exception] other than an [HTTPException] ever leaves the
    handler: whatever the collaborators do, an exception that reaches the
    framework is an [HTTPException] or lies outside [Exception]. *)
Theorem handler_contains_exceptions (w : Env) (request : DownloadRequest)
        (client_info : gmap string string) (e : Exn) :
  snd (download_content w request client_info []) = Raise e ->
  is_HTTPException e = true \/ is_Exception e = false.
Proof.
  unfold download_content, try_except.
  destruct (download_body w request client_info []) as [tr [a|e0]];
    [discriminate|].
  rewrite outer_try_outcome.
  destruct (is_HTTPException e0) eqn:Hh; [intros [= <-]; auto|].
  destruct (is_Exception e0) eqn:He; [discriminate|].
  intros [= <-]. auto.
Qed.

Lemma handler_contains_exceptions_witness :
  is_HTTPException (mkExn (HTTPException 502) "502: Bad Gateway") = true
  \/ is_Exception (mkExn (HTTPException 502) "502: Bad Gateway") = false.
Proof.
  apply (handler_contains_exceptions Sample.upstream_502
           (DownloadRequest_defaults "https://xhslink.com/a") Sample.client).
  reflexivity.
Defined.

(** X2. A response the handler returns is either a failure without data,
    or the success whose data holds the request's url and, as [results],
    exactly the truthy value [extract] returned for that url. *)
Theorem success_carries_extractor_result (w : Env) (request : DownloadRequest)
        (client_info : gmap string string) (response : DownloadResponse) :
  snd (download_content w request client_info []) = Return response ->
  (success response = false /\ data response = None)
  \/ (exists result n now,
        XHS.extract (xhs w) (xhs_kwargs w request) (url request) true None
          = Return result
        /\ truthy result = true
        /\ response =
           {| success := true;
              message := "下载成功完成";
              data := Some [ ("url", PStr (url request));
                             ("status", PStr "completed");
                             ("message", PStr "下载完成");
                             ("result_count", PInt n);
                             ("results", result);
                             ("timestamp", PStr now) ] |}).
Proof.
  unfold download_content, try_except.
  destruct (download_body w request client_info []) as [tr [a|e]] eqn:Hbody.
  - intros [= ->]. exact (download_body_returns w request client_info tr response Hbody).
  - rewrite outer_try_outcome.
    destruct (is_HTTPException e); [discriminate|].
    destruct (is_Exception e); [|discriminate].
    intros [= <-]. left. auto.
Qed.

Lemma success_carries_extractor_result_witness :
  (success (mkDownloadResponse false "下载失败：未获取到内容" None) = false
   /\ data (mkDownloadResponse false "下载失败：未获取到内容" None) = None)
  \/ (exists result n now,
        XHS.extract (xhs Sample.nothing)
          (xhs_kwargs Sample.nothing (DownloadRequest_defaults "https://xhslink.com/a"))
          (url (DownloadRequest_defaults "https://xhslink.com/a")) true None
          = Return result
        /\ truthy result = true
        /\ mkDownloadResponse false "下载失败：未获取到内容" None =
           {| success := true;
              message := "下载成功完成";
              data := Some [ ("url", PStr (url (DownloadRequest_defaults "https://xhslink.com/a")));
                             ("status", PStr "completed");
                             ("message", PStr "下载完成");
                             ("result_count", PInt n);
                             ("results", result);
                             ("timestamp", PStr now) ] |}).
Proof.
  apply (success_carries_extractor_result Sample.nothing
           (DownloadRequest_defaults "https://xhslink.com/a") Sample.client).
  reflexivity.
Defined.

(** X3. A client record without ["client_id"] stops the request before
    anything is imported or constructed: the [KeyError] is logged and the
    response is the failure that quotes the key. *)
Theorem missing_client_id_folded (w : Env) (request : DownloadRequest)
        (client_info : gmap string string) :
  client_info !! "client_id" = None ->
  download_content w request client_info [] =
  (failure_lines w (mkExn KeyError "'client_id'"),
   Return {| success := false;
             message := "下载失败: 'client_id'";
             data := None |}).
Proof.
  intros Hcid.
  apply (body_error_folded w request client_info [] (mkExn KeyError "'client_id'"));
    [|reflexivity|reflexivity].
  unfold download_body, client_id_of. rewrite Hcid. reflexivity.
Qed.

Lemma missing_client_id_folded_witness :
  download_content Sample.two_notes
    (DownloadRequest_defaults "https://xhslink.com/a") ∅ [] =
  (failure_lines Sample.two_notes (mkExn KeyError "'client_id'"),
   Return {| success := false; message := "下载失败: 'client_id'"; data := None |}).
Proof.
  apply (missing_client_id_folded Sample.two_notes
           (DownloadRequest_defaults "https://xhslink.com/a") ∅).
  vm_compute. reflexivity.
Defined.

(** X4. When importing the download module fails with an [Exception] that
    is no [ImportError] (and no [HTTPException]), the inner [except] does
    not apply: no extractor is constructed and the response is the ordinary
    failure, whose message carries the text of the error. *)
Theorem import_other_error_folded (w : Env) (request : DownloadRequest)
        (client_info : gmap string string) (cid : string) (e : Exn) :
  client_info !! "client_id" = Some cid ->
  import_XHS w = Some e ->
  is_ImportError e = false ->
  is_HTTPException e = false ->
  is_Exception e = true ->
  download_content w request client_info [] =
  (([request_line request cid; EvImportXHS] ++ failure_lines w e)%list,
   Return {| success := false;
             message := "下载失败: " +:+ exn_str e;
             data := None |}).
Proof.
  intros Hcid Himp Hie Hh He.
  apply (body_error_folded w request client_info
           [request_line request cid; EvImportXHS] e); [|exact Hh|exact He].
  unfold download_body, client_id_of. rewrite Hcid, Himp.
  unfold try_except, bind, logger_info, emit, completes, ret, raise; simpl.
  rewrite Hie. reflexivity.
Qed.

Lemma import_other_error_folded_witness :
  snd (download_content Fixture.broken_module
         (DownloadRequest_defaults "https://xhslink.com/a") Sample.client []) =
  Return {| success := false;
            message := "下载失败: invalid syntax (application.py, line 12)";
            data := None |}.
Proof.
  rewrite (import_other_error_folded Fixture.broken_module
             (DownloadRequest_defaults "https://xhslink.com/a") Sample.client "tester"
             (mkExn (OtherException "SyntaxError") "invalid syntax (application.py, line 12)")
             eq_refl eq_refl eq_refl eq_refl eq_refl).
  reflexivity.
Defined.

(** X5. When the entry hook of the session raises, neither [extract] nor
    the exit hook is called, and the error is folded into the failure
    response. *)
Theorem enter_error_skips_block (w : Env) (request : DownloadRequest)
        (client_info : gmap string string) (cid : string) (e : Exn) :
  client_info !! "client_id" = Some cid ->
  import_XHS w = None ->
  XHS.init (xhs w) (xhs_kwargs w request) = None ->
  XHS.aenter (xhs w) (xhs_kwargs w request) = Some e ->
  is_HTTPException e = false ->
  is_Exception e = true ->
  download_content w request client_info [] =
  (([ request_line request cid; EvImportXHS; EvInit (xhs_kwargs w request);
      EvEnter ] ++ failure_lines w e)%list,
   Return {| success := false;
             message := "下载失败: " +:+ exn_str e;
             data := None |}).
Proof.
  intros Hcid Himp Hinit Henter Hh He.
  apply (body_error_folded w request client_info
           [ request_line request cid; EvImportXHS; EvInit (xhs_kwargs w request);
             EvEnter ] e); [|exact Hh|exact He].
  rewrite (download_body_loaded w request client_info cid Hcid Himp).
  unfold_handler; simpl. rewrite Hinit, Henter. reflexivity.
Qed.

Lemma enter_error_skips_block_witness :
  calls is_extract
    (fst (download_content Fixture.enter_fails
            (DownloadRequest_defaults "https://xhslink.com/a") Sample.client [])) = 0
  /\ calls is_exit
       (fst (download_content Fixture.enter_fails
               (DownloadRequest_defaults "https://xhslink.com/a") Sample.client [])) = 0.
Proof.
  rewrite (enter_error_skips_block Fixture.enter_fails
             (DownloadRequest_defaults "https://xhslink.com/a") Sample.client "tester"
             (mkExn (OtherException "ConnectError") "no route to host")
             eq_refl eq_refl eq_refl eq_refl eq_refl eq_refl).
  split; reflexivity.
Defined.

(** X6. When [extract] has returned and the exit hook then raises, the
    result is dropped: the response is the failure with the exit hook's
    error, whatever [extract] returned, and the clock is never read. *)
Theorem exit_error_discards_result (w : Env) (request : DownloadRequest)
        (client_info : gmap string string) (cid : string)
        (result : PyVal) (e : Exn) :
  client_info !! "client_id" = Some cid ->
  import_XHS w = None ->
  XHS.init (xhs w) (xhs_kwargs w request) = None ->
  XHS.aenter (xhs w) (xhs_kwargs w request) = None ->
  XHS.extract (xhs w) (xhs_kwargs w request) (url request) true None = Return result ->
  XHS.aexit (xhs w) (xhs_kwargs w request) None = Raise e ->
  is_HTTPException e = false ->
  is_Exception e = true ->
  download_content w request client_info [] =
  (([ request_line request cid; EvImportXHS; EvInit (xhs_kwargs w request);
      EvEnter; EvExtract (url request) true None; EvExit None ]
    ++ failure_lines w e)%list,
   Return {| success := false;
             message := "下载失败: " +:+ exn_str e;
             data := None |}).
Proof.
  intros Hcid Himp Hinit Henter Hext Hexit Hh He.
  apply (body_error_folded w request client_info
           [ request_line request cid; EvImportXHS; EvInit (xhs_kwargs w request);
             EvEnter; EvExtract (url request) true None; EvExit None ] e);
    [|exact Hh|exact He].
  rewrite (download_body_loaded w request client_info cid Hcid Himp).
  unfold_handler; simpl. rewrite Hinit, Henter, Hext; simpl. rewrite Hexit.
  reflexivity.
Qed.

Lemma exit_error_discards_result_witness :
  snd (download_content Fixture.exit_fails
         (DownloadRequest_defaults "https://xhslink.com/a") Sample.client []) =
  Return {| success := false;
            message := "下载失败: client already closed";
            data := None |}.
Proof.
  rewrite (exit_error_discards_result Fixture.exit_fails
             (DownloadRequest_defaults "https://xhslink.com/a") Sample.client "tester"
             (PList [Sample.note "a"])
             (mkExn (OtherException "RuntimeError") "client already closed")
             eq_refl eq_refl eq_refl eq_refl eq_refl eq_refl eq_refl eq_refl).
  reflexivity.
Defined.


(** [len] of a string counts characters, not bytes. *)
Lemma py_len_counts_characters :
  py_len (PStr "作品") ([] : Trace) = ([], Return 2%Z).
Proof. reflexivity. Qed.


(** X8. When the exit hook swallows the error of [extract], the name
    [result] is never bound: the handler still answers, with a failure and
    no data, after one call of the exit hook. *)
Theorem swallowed_error_is_failure (w : Env) (request : DownloadRequest)
        (client_info : gmap string string) (cid : string) (e : Exn) :
  client_info !! "client_id" = Some cid ->
  import_XHS w = None ->
  XHS.init (xhs w) (xhs_kwargs w request) = None ->
  XHS.aenter (xhs w) (xhs_kwargs w request) = None ->
  XHS.extract (xhs w) (xhs_kwargs w request) (url request) true None = Raise e ->
  XHS.aexit (xhs w) (xhs_kwargs w request) (Some e) = Return true ->
  exists unbound : Exn,
    exn_class unbound = UnboundLocalError
    /\ download_content w request client_info [] =
       (([ request_line request cid; EvImportXHS; EvInit (xhs_kwargs w request);
           EvEnter; EvExtract (url request) true None; EvExit (Some e) ]
         ++ failure_lines w unbound)%list,
        Return {| success := false;
                  message := "下载失败: " +:+ exn_str unbound;
                  data := None |}).
Proof.
  intros Hcid Himp Hinit Henter Hext Hexit.
  exists (mkExn UnboundLocalError
            "cannot access local variable 'result' where it is not associated with a value").
  split; [reflexivity|].
  apply body_error_folded; [|reflexivity|reflexivity].
  rewrite (download_body_loaded w request client_info cid Hcid Himp).
  unfold_handler; simpl. rewrite Hinit, Henter, Hext; simpl. rewrite Hexit.
  reflexivity.
Qed.

Lemma swallowed_error_is_failure_witness :
  exists unbound : Exn,
    exn_class unbound = UnboundLocalError
    /\ download_content Fixture.swallowing
         (DownloadRequest_defaults "https://xhslink.com/a") Sample.client [] =
       (([ request_line (DownloadRequest_defaults "https://xhslink.com/a") "tester";
           EvImportXHS;
           EvInit (xhs_kwargs Fixture.swallowing
                     (DownloadRequest_defaults "https://xhslink.com/a"));
           EvEnter; EvExtract "https://xhslink.com/a" true None;
           EvExit (Some (mkExn (OtherException "RuntimeError") "connection reset")) ]
         ++ failure_lines Fixture.swallowing unbound)%list,
        Return {| success := false;
                  message := "下载失败: " +:+ exn_str unbound;
                  data := None |}).
Proof.
  apply (swallowed_error_is_failure Fixture.swallowing
           (DownloadRequest_defaults "https://xhslink.com/a") Sample.client "tester"
           (mkExn (OtherException "RuntimeError") "connection reset"));
    reflexivity.
Defined.

(** X9. The fields [save_path] and [quality] of a request are never read:
    two requests that agree on the url, the cookie, the proxy and the three
    download switches are handled identically. *)
Theorem save_path_quality_ignored (w : Env) (r1 r2 : DownloadRequest)
        (client_info : gmap string string) (tr : Trace) :
  url r1 = url r2 ->
  cookie r1 = cookie r2 ->
  proxy r1 = proxy r2 ->
  image_download r1 = image_download r2 ->
  video_download r1 = video_download r2 ->
  live_download r1 = live_download r2 ->
  download_content w r1 client_info tr = download_content w r2 client_info tr.
Proof.
  intros Hu Hc Hp Hi Hv Hl. apply download_content_reads; [exact Hu|].
  unfold xhs_kwargs. rewrite Hc, Hp, Hi, Hv, Hl. reflexivity.
Qed.

Lemma save_path_quality_ignored_witness :
  download_content Sample.two_notes
    (mkDownloadRequest "https://xhslink.com/a" (Some "/mnt/media") (Some "low")
       None None (Some true) (Some true) (Some false)) Sample.client [] =
  download_content Sample.two_notes
    (mkDownloadRequest "https://xhslink.com/a" None (Some "high")
       None None (Some true) (Some true) (Some false)) Sample.client [].
Proof.
  apply (save_path_quality_ignored Sample.two_notes
           (mkDownloadRequest "https://xhslink.com/a" (Some "/mnt/media") (Some "low")
              None None (Some true) (Some true) (Some false))
           (mkDownloadRequest "https://xhslink.com/a" None (Some "high")
              None None (Some true) (Some true) (Some false)));
    reflexivity.
Defined.

(** X10. The working directory handed to the extractor is the [downloads]
    directory of the bootstrap: after a start-up whose body went through,
    [work_path] names a directory that exists. *)
Theorem work_path_exists_after_startup (h : Host) (g : Globals)
        (traceback_format_exc : Exn -> string) (w : Env)
        (request : DownloadRequest) (s : System) :
  snd (startup_body h g (project_root w) s) = Return tt ->
  XHS.work_path (xhs_kwargs w request) =
    path_str (path_div (project_root w) "downloads")
  /\ nodes (fst (startup_event h g (project_root w) traceback_format_exc s))
       !! path_div (project_root w) "downloads" = Some Dir.
Proof.
  intros Hok. split; [reflexivity|].
  destruct (startup_event_run h g (project_root w) traceback_format_exc s)
    as [_ [Hn _]].
  destruct (startup_body_run h g (project_root w) s) as [tr [o [H [_ [Hdirs _]]]]].
  rewrite H in Hok. simpl in Hok. subst o.
  rewrite Hn. apply (proj1 (Hdirs eq_refl)). simpl. auto.
Qed.

Lemma work_path_exists_after_startup_witness :
  XHS.work_path (xhs_kwargs Sample.two_notes
                   (DownloadRequest_defaults "https://xhslink.com/a")) =
    path_str (path_div (project_root Sample.two_notes) "downloads")
  /\ nodes (fst (startup_event
                   (Sample.host (Sample.provider Sample.simple_settings
                                                 Sample.simple_environment))
                   Sample.globals (project_root Sample.two_notes)
                   (fun e => exn_str e) Sample.fresh))
       !! path_div (project_root Sample.two_notes) "downloads" = Some Dir.
Proof.
  apply (work_path_exists_after_startup
           (Sample.host (Sample.provider Sample.simple_settings Sample.simple_environment))
           Sample.globals (fun e => exn_str e) Sample.two_notes
           (DownloadRequest_defaults "https://xhslink.com/a") Sample.fresh).
  vm_compute. reflexivity.
Defined.

(** * Further properties of the start-up hook *)

(** A path that can be created holds a directory already or nothing. *)
Lemma creatable_lookup (m : gmap Path Node) (r : gmap Path Refusal) (p : Path) :
  creatable m r p = true -> m !! p = Some Dir \/ m !! p = None.
Proof.
  unfold creatable. destruct (m !! p) as [[]|]; auto. discriminate.
Qed.

(** Each entry of the filesystem is as before, or is one of the listed
    paths, was absent, and is a directory now. *)
Lemma make_all_lookup (r : gmap Path Refusal) (ps : list Path)
      (m : gmap Path Node) (q : Path) :
  make_all r ps m !! q = m !! q
  \/ (In q ps /\ m !! q = None /\ make_all r ps m !! q = Some Dir).
Proof.
  revert m. induction ps as [|p ps IH]; intros m; simpl; [auto|].
  destruct (creatable m r p) eqn:Hc; [|auto].
  destruct (decide (p = q)) as [->|Hne].
  - assert (make_all r ps (<[q := Dir]> m) !! q = Some Dir) as Hq
      by apply make_all_keeps_dir, lookup_insert_eq.
    destruct (creatable_lookup m r q Hc) as [Hd | Hn].
    + left. rewrite Hq, Hd. reflexivity.
    + right. auto.
  - destruct (IH (<[p := Dir]> m)) as [H | [Hin [Hn Hd]]];
      rewrite lookup_insert_ne in * by exact Hne; auto.
Qed.

(** When the parent is a directory and nothing stands in the way of the
    listed paths, all of them are directories afterwards. *)
Lemma make_all_creates (r : gmap Path Refusal) (root : Path) (ps : list Path)
      (m : gmap Path Node) :
  m !! root = Some Dir ->
  (forall p, In p ps -> path_parent p = root) ->
  (forall p, In p ps -> m !! p <> Some File) ->
  (forall p, In p ps -> r !! p = None) ->
  forall p, In p ps -> make_all r ps m !! p = Some Dir.
Proof.
  revert m. induction ps as [|p0 ps IH]; intros m Hroot Hpar Hfile Hfree p Hin;
    [destruct Hin|].
  assert (creatable m r p0 = true) as Hc.
  { unfold creatable.
    destruct (m !! p0) as [[]|] eqn:Hp0; [|reflexivity|].
    - destruct (Hfile p0 (or_introl eq_refl) Hp0).
    - rewrite (Hpar p0 (or_introl eq_refl)), Hroot, (Hfree p0 (or_introl eq_refl)).
      reflexivity. }
  simpl. rewrite Hc.
  destruct Hin as [<- | Hin].
  - apply make_all_keeps_dir, lookup_insert_eq.
  - apply IH; auto.
    + apply insert_keeps_dir, Hroot.
    + intros q Hq. apply Hpar. right. exact Hq.
    + intros q Hq. destruct (decide (p0 = q)) as [->|Hne].
      * rewrite lookup_insert_eq. discriminate.
      * rewrite lookup_insert_ne by exact Hne. apply Hfile. right. exact Hq.
    + intros q Hq. apply Hfree. right. exact Hq.
Qed.

Lemma storage_dirs_parent (root p : Path) :
  In p (storage_dirs root) -> path_parent p = root.
Proof.
  unfold storage_dirs, path_parent, path_div. intros Hin.
  in_cases Hin; subst p; apply removelast_last.
Qed.

(** X11. On a filesystem where the project root is a directory, none of the
    four storage paths is a file and the system refuses none of them, the
    start-up hook leaves all four directories in place, and its [mkdir]
    calls all go through. *)
Theorem startup_creates_all (h : Host) (g : Globals) (root : Path)
        (traceback_format_exc : Exn -> string) (s : System) :
  nodes s !! root = Some Dir ->
  (forall p, In p (storage_dirs root) -> nodes s !! p <> Some File) ->
  (forall p, In p (storage_dirs root) -> refusals s !! p = None) ->
  (forall p, In p (storage_dirs root) ->
     nodes (fst (startup_event h g root traceback_format_exc s)) !! p = Some Dir)
  /\ snd (ensure_directories root s) = Return tt.
Proof.
  intros Hroot Hfile Hfree.
  destruct (startup_event_run h g root traceback_format_exc s) as [_ [Hn _]].
  assert (forall p, In p (storage_dirs root) ->
            make_all (refusals s) (storage_dirs root) (nodes s) !! p = Some Dir) as Hall.
  { apply (make_all_creates (refusals s) root); auto.
    intros p Hp. apply storage_dirs_parent, Hp. }
  split; [intros p Hp; rewrite Hn; apply Hall, Hp|].
  destruct (ensure_directories_run root s) as [tr [o [H [He _]]]].
  rewrite H. simpl. destruct o as [[]|e]; [reflexivity|].
  exfalso.
  (* a failing call would have left its directory missing *)
  revert H. unfold ensure_directories, storage_dirs in *. cbv zeta.
  assert (forall (p : Path) (k : unit -> M System unit) (s0 : System) s1 e1,
            nodes s0 !! p = Some Dir \/
            (nodes s0 !! p = None /\ nodes s0 !! path_parent p = Some Dir
             /\ refusals s0 !! p = None) ->
            bind (mkdir_exist_ok p) k s0 = (s1, Raise e1) ->
            exists s0', k tt s0' = (s1, Raise e1)
                        /\ nodes s0' = <[p := Dir]> (nodes s0)
                        /\ refusals s0' = refusals s0) as Hstep.
  { intros p k s0 s1 e1 Hp. unfold bind.
    rewrite (mkdir_creatable p s0).
    - intros Hk. eexists. split; [exact Hk|]. auto.
    - unfold creatable. destruct Hp as [-> | [-> [-> ->]]]; reflexivity. }
  assert (forall (m : gmap Path Node) (p : Path),
            m !! root = Some Dir -> m !! p <> Some File ->
            refusals s !! p = None -> path_parent p = root ->
            m !! p = Some Dir \/
            (m !! p = None /\ m !! path_parent p = Some Dir
             /\ refusals s !! p = None)) as Hcan.
  { intros m p Hr Hf Hx Hpp. destruct (m !! p) as [[]|] eqn:E; auto.
    - destruct (Hf eq_refl).
    - right. rewrite Hpp. auto. }
  assert (forall (m : gmap Path Node) (p q : Path),
            m !! q <> Some File -> <[p := Dir]> m !! q <> Some File) as Hkeep.
  { intros m p q Hq. destruct (decide (p = q)) as [->|Hne].
    - rewrite lookup_insert_eq. discriminate.
    - rewrite lookup_insert_ne by exact Hne. exact Hq. }
  intros H.
  apply Hstep in H.
  2:{ apply Hcan; auto; [apply Hfile|apply Hfree|apply storage_dirs_parent];
        simpl; auto. }
  destruct H as [s1 [H [Hn1 Hr1]]].
  unfold bind at 1, on_log at 1 in H. simpl in H.
  apply Hstep in H.
  2:{ cbn [nodes refusals]. rewrite Hn1, Hr1.
      apply Hcan; [apply insert_keeps_dir, Hroot|apply Hkeep, Hfile; simpl; auto
                  |apply Hfree; simpl; auto|apply (storage_dirs_parent root); simpl; auto]. }
  destruct H as [s2 [H [Hn2 Hr2]]]. cbn [nodes refusals] in Hn2, Hr2.
  unfold bind at 1, on_log at 1 in H. simpl in H.
  apply Hstep in H.
  2:{ cbn [nodes refusals]. rewrite Hn2, Hr2, Hn1, Hr1.
      apply Hcan; [do 2 apply insert_keeps_dir; exact Hroot
                  |do 2 apply Hkeep; apply Hfile; simpl; auto
                  |apply Hfree; simpl; auto|apply (storage_dirs_parent root); simpl; auto]. }
  destruct H as [s3 [H [Hn3 Hr3]]]. cbn [nodes refusals] in Hn3, Hr3.
  unfold bind at 1, on_log at 1 in H. simpl in H.
  apply Hstep in H.
  2:{ cbn [nodes refusals]. rewrite Hn3, Hr3, Hn2, Hr2, Hn1, Hr1.
      apply Hcan; [do 3 apply insert_keeps_dir; exact Hroot
                  |do 3 apply Hkeep; apply Hfile; simpl; auto 10
                  |apply Hfree; simpl; auto 10|apply (storage_dirs_parent root); simpl; auto 10]. }
  destruct H as [s4 [H _]].
  unfold on_log in H. simpl in H. discriminate.
Qed.

Lemma startup_creates_all_witness :
  nodes (fst (startup_event
                (Sample.host (Sample.provider Sample.simple_settings
                                              Sample.simple_environment))
                Sample.globals ["app"] (fun e => exn_str e) Sample.fresh))
    !! ["app"; "logs"] = Some Dir.
Proof.
  refine (proj1 (startup_creates_all
                   (Sample.host (Sample.provider Sample.simple_settings
                                                 Sample.simple_environment))
                   Sample.globals ["app"] (fun e => exn_str e) Sample.fresh _ _ _)
                ["app"; "logs"] _).
  - vm_compute. reflexivity.
  - intros p Hp. in_cases Hp; subst p; vm_compute; discriminate.
  - intros p Hp. in_cases Hp; subst p; vm_compute; reflexivity.
  - simpl. auto 10.
Defined.

(** X12. The start-up hook never removes or alters what is on the
    filesystem: every path holds what it held before, except that a storage
    path that was absent may now be a directory; and where creation is
    refused is left as it was. *)
Theorem startup_only_adds_storage_dirs (h : Host) (g : Globals) (root : Path)
        (traceback_format_exc : Exn -> string) (s : System) (q : Path) :
  (nodes (fst (startup_event h g root traceback_format_exc s)) !! q = nodes s !! q
   \/ (In q (storage_dirs root)
       /\ nodes s !! q = None
       /\ nodes (fst (startup_event h g root traceback_format_exc s)) !! q = Some Dir))
  /\ refusals (fst (startup_event h g root traceback_format_exc s)) = refusals s.
Proof.
  destruct (startup_event_run h g root traceback_format_exc s) as [_ [Hn [Hr _]]].
  rewrite Hn. split; [apply make_all_lookup|exact Hr].
Qed.

(** X13. The four directories are made in one [try]: when the first
    [mkdir] raises, none of the other three is attempted, so the filesystem
    is left exactly as it was, and the error is logged. *)
Theorem startup_first_failure_aborts (h : Host) (g : Globals) (root : Path)
        (traceback_format_exc : Exn -> string) (s s' : System) (e : Exn) :
  mkdir_exist_ok (path_div root "downloads") s = (s', Raise e) ->
  nodes (fst (startup_event h g root traceback_format_exc s)) = nodes s
  /\ log (fst (startup_event h g root traceback_format_exc s)) =
     (log s ++ startup_failure_lines traceback_format_exc e)%list.
Proof.
  intros Hmk.
  assert (s' = s) as ->.
  { revert Hmk. unfold mkdir_exist_ok.
    repeat case_match; intros [= <- _]; reflexivity || discriminate. }
  assert (startup_body h g root s = (s, Raise e)) as Hbody.
  { unfold startup_body, ensure_directories. cbv zeta.
    unfold bind at 1. unfold bind at 1. rewrite Hmk. reflexivity. }
  destruct (startup_event_run h g root traceback_format_exc s)
    as [_ [_ [_ [Hlog _]]]].
  rewrite (Hlog s e Hbody). split; reflexivity.
Qed.

Lemma startup_first_failure_aborts_witness :
  nodes (fst (startup_event
                (Sample.host (Sample.provider Sample.simple_settings
                                              Sample.simple_environment))
                Sample.globals ["app"] (fun e => exn_str e)
                Fixture.downloads_is_file)) =
  nodes Fixture.downloads_is_file.
Proof.
  apply (startup_first_failure_aborts
           (Sample.host (Sample.provider Sample.simple_settings Sample.simple_environment))
           Sample.globals ["app"] (fun e => exn_str e)
           Fixture.downloads_is_file Fixture.downloads_is_file
           (os_error FileExistsError "[Errno 17] File exists" ["app"; "downloads"])).
  vm_compute. reflexivity.
Defined.

(** X14. The start-up report reads three entries of the environment
    information after the directories are made: when one of them is
    missing, the directories stay as made, the [KeyError] is logged, and the
    hook still returns. *)
Theorem startup_missing_key_keeps_dirs (h : Host) (g : Globals) (root : Path)
        (traceback_format_exc : Exn -> string) (s : System) :
  snd (ensure_directories root s) = Return tt ->
  (dict_get (env_config g) "environment" = None
   \/ dict_get (env_config g) "api_enabled" = None
   \/ dict_get (env_config g) "port" = None) ->
  snd (startup_event h g root traceback_format_exc s) = Return tt
  /\ (forall p, In p (storage_dirs root) ->
        nodes (fst (startup_event h g root traceback_format_exc s)) !! p = Some Dir)
  /\ exists e,
       exn_class e = KeyError
       /\ In (LogError ("❌ API服务器启动失败: " +:+ exn_str e))
             (log (fst (startup_event h g root traceback_format_exc s))).
Proof.
  intros Hdirs Hmissing.
  destruct (startup_event_run h g root traceback_format_exc s)
    as [Hret [Hn [_ [Hlog _]]]].
  destruct (ensure_directories_run root s) as [tr [o [H [_ [Hok _]]]]].
  rewrite H in Hdirs. simpl in Hdirs. subst o.
  split; [exact Hret|]. split; [intros p Hp; rewrite Hn; apply Hok; auto|].
  assert (exists s1 e, log_startup_info h g
                         {| nodes := make_all (refusals s) (storage_dirs root) (nodes s);
                            refusals := refusals s;
                            log := (log s ++ tr)%list |} = (s1, Raise e)
                       /\ exn_class e = KeyError) as [s1 [e [Hinfo He]]].
  { unfold log_startup_info, on_log, getitem, logger_info, emit, bind, ret, raise.
    simpl.
    destruct (dict_get (env_config g) "environment"); simpl;
      [|eexists _, _; split; reflexivity].
    destruct (dict_get (env_config g) "api_enabled"); simpl;
      [|eexists _, _; split; reflexivity].
    destruct (dict_get (env_config g) "port"); simpl;
      [|eexists _, _; split; reflexivity].
    destruct Hmissing as [Hm | [Hm | Hm]]; discriminate. }
  assert (startup_body h g root s = (s1, Raise e)) as Hbody.
  { unfold startup_body, bind. rewrite H, Hinfo. reflexivity. }
  exists e. split; [exact He|].
  rewrite (Hlog s1 e Hbody). simpl. apply in_app_iff. right. simpl. auto.
Qed.

Lemma startup_missing_key_keeps_dirs_witness :
  snd (startup_event
         (Sample.host (Sample.provider Sample.simple_settings Sample.simple_environment))
         Fixture.globals_without_port ["app"] (fun e => exn_str e) Sample.fresh)
  = Return tt.
Proof.
  apply (startup_missing_key_keeps_dirs
           (Sample.host (Sample.provider Sample.simple_settings Sample.simple_environment))
           Fixture.globals_without_port ["app"] (fun e => exn_str e) Sample.fresh).
  - vm_compute. reflexivity.
  - right. right. reflexivity.
Defined.

(** * Further properties of the module body *)

(** X15. When every step of the production provider works, its
    configuration is the one in force and the simple provider is never
    touched, whatever that one would do. *)
Theorem production_config_preferred (h : Host) (api : ApiConfig) (env : PyDict) :
  Config.import_module (production_config h) = None ->
  Config.setup_environment (production_config h) = None ->
  Config.get_config (production_config h) = Return api ->
  Config.get_environment_info (production_config h) = Return env ->
  resolve_config h [] =
  ([ EvImportConfig Production; EvSetupEnvironment Production;
     EvGetConfig Production; EvGetEnvironmentInfo Production;
     EvPrint "✅ 使用生产环境配置" ],
   Return (api, env)).
Proof.
  intros Himp Hsetup Hcfg Henv. unfold_config; simpl.
  rewrite Himp, Hsetup, Hcfg, Henv. reflexivity.
Qed.

Lemma production_config_preferred_witness :
  resolve_config Fixture.production_ready [] =
  ([ EvImportConfig Production; EvSetupEnvironment Production;
     EvGetConfig Production; EvGetEnvironmentInfo Production;
     EvPrint "✅ 使用生产环境配置" ],
   Return (Fixture.production_settings, Fixture.production_environment)).
Proof.
  apply (production_config_preferred Fixture.production_ready
           Fixture.production_settings Fixture.production_environment);
    reflexivity.
Defined.

(** The simple branch starts from whatever the production branch logged. *)
Lemma load_config_frame (p : Profile) (c : Config.provider) (banner : string)
      (tr : Trace) :
  load_config p c banner tr =
  ((tr ++ fst (load_config p c banner []))%list, snd (load_config p c banner [])).
Proof.
  unfold load_config, emit, completes, yields, bind, ret, raise; simpl.
  repeat (case_match; simplify_eq/=); rewrite <- ?app_assoc; reflexivity.
Qed.

(** X16. The fallback is tried once and is not itself guarded: when the
    production branch stops with an [ImportError] and the simple branch
    raises too, of whatever class, that second error ends the module body;
    no configuration is in force and no application is built. *)
Theorem both_providers_fail (h : Host) (e1 e2 : Exn) :
  snd (load_config Production (production_config h) "✅ 使用生产环境配置" []) = Raise e1 ->
  is_ImportError e1 = true ->
  snd (load_config Simple (simple_config h) "⚠️ 使用简单环境配置" []) = Raise e2 ->
  snd (resolve_config h []) = Raise e2
  /\ snd (module_body h []) = Raise e2.
Proof.
  intros H1 Hie H2.
  assert (snd (resolve_config h []) = Raise e2) as Hres.
  { unfold resolve_config, try_except.
    destruct (load_config Production _ _ []) as [tr o]. simpl in H1. subst o.
    simpl. rewrite Hie, load_config_frame, H2. reflexivity. }
  split; [exact Hres|].
  unfold module_body, bind.
  destruct (resolve_config h []) as [tr o]. simpl in Hres. subst o. reflexivity.
Qed.

Lemma both_providers_fail_witness :
  snd (module_body Fixture.no_provider []) =
  Raise (mkExn ModuleNotFoundError "No module named 'config.simple_config'").
Proof.
  apply (both_providers_fail Fixture.no_provider
           (mkExn ModuleNotFoundError "No module named 'config.production_config'")
           (mkExn ModuleNotFoundError "No module named 'config.simple_config'"));
    reflexivity.
Defined.

(** X17. The root path the application is mounted under is empty or begins
    with a slash, whatever [API_ROOT_PATH] holds: a value that is empty
    (or unset) or begins with a slash is taken as it is, and any other
    value gets one slash in front. *)
Theorem api_root_path_normalised (h : Host) :
  (api_root_path h = "" \/ String.prefix "/" (api_root_path h) = true)
  /\ (default "" (getenv h "API_ROOT_PATH") = ""
      \/ String.prefix "/" (default "" (getenv h "API_ROOT_PATH")) = true ->
      api_root_path h = default "" (getenv h "API_ROOT_PATH"))
  /\ (default "" (getenv h "API_ROOT_PATH") <> "" ->
      String.prefix "/" (default "" (getenv h "API_ROOT_PATH")) = false ->
      api_root_path h = "/" +:+ default "" (getenv h "API_ROOT_PATH")).
Proof.
  unfold api_root_path.
  destruct (default "" (getenv h "API_ROOT_PATH")) as [|a v] eqn:Hv.
  - simpl. split; [auto|]. split; [reflexivity|]. intros Hne. destruct Hne. reflexivity.
  - destruct (String.prefix "/" (String a v)) eqn:Hp; simpl; rewrite ?Hp; simpl.
    + split; [auto|]. split; [reflexivity|discriminate].
    + split; [right; reflexivity|]. split; [|reflexivity].
      intros [H | H]; discriminate.
Qed.

Lemma api_root_path_normalised_witness :
  api_root_path Fixture.production_ready = "/xhs".
Proof.
  apply (proj2 (proj2 (api_root_path_normalised Fixture.production_ready))).
  - discriminate.
  - reflexivity.
Defined.

(** X18. An application the module body builds is mounted under the
    normalised root path, has the authentication middleware outermost and
    the CORS middleware inside it, and serves its documentation pages
    exactly when the ["debug"] entry of the configuration in force is
    truthy: both pages under the root path, or neither. *)
Theorem docs_only_in_debug (h : Host) (g : Globals) :
  snd (module_body h []) = Return g ->
  exists debug,
    dict_get (env_config g) "debug" = Some debug
    /\ docs_url (app g) =
       (if truthy debug then Some (api_root_path h +:+ "/docs") else None)
    /\ redoc_url (app g) =
       (if truthy debug then Some (api_root_path h +:+ "/redoc") else None)
    /\ root_path (app g) = api_root_path h
    /\ middleware (app g) =
       [APIAuthMiddleware; CORSMiddleware ["*"] true ["*"] ["*"]]
    /\ snd (resolve_config h []) = Return (api_config g, env_config g).
Proof.
  unfold module_body, bind.
  destruct (resolve_config h []) as [tr [[api env]|e]]; [|discriminate].
  unfold getitem, ret, raise. simpl.
  destruct (dict_get env "debug") as [debug|] eqn:Hdebug; [|discriminate].
  intros [= <-]. exists debug. simpl. split; [exact Hdebug|].
  repeat split; reflexivity.
Qed.

Lemma docs_only_in_debug_witness :
  exists debug,
    dict_get (env_config Fixture.production_globals) "debug" = Some debug
    /\ docs_url (app Fixture.production_globals) =
       (if truthy debug then Some (api_root_path Fixture.production_ready +:+ "/docs")
        else None)
    /\ redoc_url (app Fixture.production_globals) =
       (if truthy debug then Some (api_root_path Fixture.production_ready +:+ "/redoc")
        else None)
    /\ root_path (app Fixture.production_globals) = api_root_path Fixture.production_ready
    /\ middleware (app Fixture.production_globals) =
       [APIAuthMiddleware; CORSMiddleware ["*"] true ["*"] ["*"]]
    /\ snd (resolve_config Fixture.production_ready []) =
       Return (api_config Fixture.production_globals,
               env_config Fixture.production_globals).
Proof.
  apply (docs_only_in_debug Fixture.production_ready Fixture.production_globals).
  reflexivity.
Defined.

(** * The read-only endpoints and the entry point *)

Ltac unfold_endpoint :=
  unfold root, health_check, get_status, get_info, get_auth_status_endpoint,
    get_auth_status, raise_HTTPException, time_now, event_loop_time,
    try_except, getitem, logger_error, emit, yields, bind, ret, raise.

(** X19. The health check always answers: with status 200 when the
    environment information has its ["environment"] and ["api_enabled"]
    entries, and otherwise with status 503 after logging one error; it
    never raises. *)
Theorem health_check_always_answers (rt : Runtime) (g : Globals) :
  exists reply,
    snd (health_check rt g []) = Return reply
    /\ (reply_status reply = 200%Z \/ reply_status reply = 503%Z)
    /\ (reply_status reply = 200%Z <->
        is_Some (dict_get (env_config g) "environment")
        /\ is_Some (dict_get (env_config g) "api_enabled"))
    /\ calls is_error_line (fst (health_check rt g [])) =
       (if decide (reply_status reply = 200%Z) then 0 else 1).
Proof.
  unfold_endpoint; simpl.
  destruct (dict_get (env_config g) "environment") as [environment|]; simpl.
  - destruct (dict_get (env_config g) "api_enabled") as [auth|]; simpl.
    + eexists. split; [reflexivity|]. simpl. split; [auto|]. split; [|reflexivity].
      split; [intros _; split; eauto|reflexivity].
    + eexists. split; [reflexivity|]. simpl. split; [auto|]. split; [|reflexivity].
      split; [discriminate|]. intros [_ [x Hx]]. discriminate.
  - eexists. split; [reflexivity|]. simpl. split; [auto|]. split; [|reflexivity].
    split; [discriminate|]. intros [[x Hx] _]. discriminate.
Qed.

(** X20. The banner endpoint has no guard of its own: it returns its four
    entries when the environment information has ["environment"] and
    ["api_enabled"], and otherwise the [KeyError] leaves the endpoint, which
    the framework answers with status 500. *)
Theorem root_needs_both_entries (g : Globals) :
  (forall environment auth_enabled,
     dict_get (env_config g) "environment" = Some environment ->
     dict_get (env_config g) "api_enabled" = Some auth_enabled ->
     root g [] =
     ([], Return (Plain [ ("message", PStr "XHS Downloader API 服务正在运行");
                          ("environment", environment);
                          ("auth_enabled", auth_enabled);
                          ("version", PStr "1.0.0") ])))
  /\ (dict_get (env_config g) "environment" = None
      \/ dict_get (env_config g) "api_enabled" = None ->
      exists e,
        root g [] = ([], Raise e)
        /\ exn_class e = KeyError
        /\ http_status (snd (root g [])) = 500%Z).
Proof.
  unfold_endpoint; simpl. split.
  - intros environment auth_enabled -> ->. reflexivity.
  - destruct (dict_get (env_config g) "environment"); simpl.
    + destruct (dict_get (env_config g) "api_enabled"); simpl.
      * intros [H | H]; discriminate.
      * intros _. eexists. repeat split.
    + intros _. eexists. repeat split.
Qed.

Lemma root_needs_both_entries_witness :
  exists e,
    root Fixture.globals_without_api_enabled [] = ([], Raise e)
    /\ exn_class e = KeyError
    /\ http_status (snd (root Fixture.globals_without_api_enabled [])) = 500%Z.
Proof.
  apply (proj2 (root_needs_both_entries Fixture.globals_without_api_enabled)).
  right. reflexivity.
Defined.

(** X21. The status endpoint always answers.  With both entries of the
    environment information present, the answer has status 200, an empty
    list of downloads (there is no job registry) and the rate-limit
    settings of the configuration in force; otherwise it is the 503 answer
    with error code [SERVICE_ERROR], after one logged error. *)
Theorem get_status_always_answers (rt : Runtime) (g : Globals) :
  exists reply,
    snd (get_status rt g []) = Return reply
    /\ ((exists body,
           reply = Plain body
           /\ is_Some (dict_get (env_config g) "environment")
           /\ is_Some (dict_get (env_config g) "api_enabled")
           /\ dict_get body "downloads" = Some (PList [])
           /\ dict_get body "rate_limit" =
              Some (PDict [ ("enabled", PBool (rate_limit_enabled (api_config g)));
                            ("max_requests", PInt (rate_limit_requests (api_config g)));
                            ("window_seconds", PInt (rate_limit_window (api_config g))) ])
           /\ calls is_error_line (fst (get_status rt g [])) = 0)
        \/ (exists content,
              reply = JSONResponse 503 content
              /\ (dict_get (env_config g) "environment" = None
                  \/ dict_get (env_config g) "api_enabled" = None)
              /\ dict_get content "error_code" = Some (PStr "SERVICE_ERROR")
              /\ calls is_error_line (fst (get_status rt g [])) = 1)).
Proof.
  unfold_endpoint; simpl.
  destruct (dict_get (env_config g) "environment") as [environment|]; simpl.
  - destruct (dict_get (env_config g) "api_enabled") as [auth|]; simpl.
    + eexists. split; [reflexivity|]. left. eexists. repeat split; eauto.
    + eexists. split; [reflexivity|]. right. eexists. repeat split; auto.
  - eexists. split; [reflexivity|]. right. eexists. repeat split; auto.
Qed.

Lemma get_auth_status_unbound :
  bool_decide ("get_auth_status" ∈ module_names) = false.
Proof. vm_compute. reflexivity. Qed.

(** X22. No statement of the module binds the name [get_auth_status], so
    the two endpoints that call it never return a body: whatever the state
    of the service, [/info] and [/auth/status] log the [NameError] and
    raise an [HTTPException] with status 500 whose detail quotes it. *)
Theorem info_endpoints_always_500 (rt : Runtime) (tr : Trace) :
  get_info rt tr =
    ((tr ++ [LogError "获取服务信息失败: name 'get_auth_status' is not defined"])%list,
     Raise (mkExn (HTTPException 500)
              "500: 无法获取服务信息: name 'get_auth_status' is not defined"))
  /\ get_auth_status_endpoint rt tr =
    ((tr ++ [LogError "获取认证状态失败: name 'get_auth_status' is not defined"])%list,
     Raise (mkExn (HTTPException 500)
              "500: 无法获取认证状态: name 'get_auth_status' is not defined")).
Proof.
  unfold get_info, get_auth_status_endpoint, get_auth_status, load_global.
  rewrite get_auth_status_unbound.
  unfold raise_HTTPException, try_except, logger_error, emit, bind, ret, raise.
  simpl. split; reflexivity.
Qed.

(** X23. The entry point, once the three entries it prints are there: it
    ends normally when the server returns or is interrupted from the
    keyboard, it prints the error and exits with code 1 when the server
    raises any other [Exception], and it lets any other error through. *)
Theorem main_outcome (h : Host) (rt : Runtime) (g : Globals)
        (environment api_enabled port : PyVal) :
  dict_get (env_config g) "environment" = Some environment ->
  dict_get (env_config g) "api_enabled" = Some api_enabled ->
  dict_get (env_config g) "port" = Some port ->
  (uvicorn_run rt (default (PStr "0.0.0.0") (dict_get (env_config g) "host")) port
     = Return tt ->
   snd (main h rt g []) = Return tt)
  /\ (forall e,
        uvicorn_run rt (default (PStr "0.0.0.0") (dict_get (env_config g) "host")) port
          = Raise e ->
        (is_KeyboardInterrupt e = true ->
         snd (main h rt g []) = Return tt
         /\ In (EvPrint (String (Ascii.ascii_of_nat 10) "👋 服务器已停止"))
               (fst (main h rt g [])))
        /\ (is_KeyboardInterrupt e = false -> is_Exception e = true ->
            snd (main h rt g []) = Raise (mkExn (OtherBaseException "SystemExit") "1")
            /\ In (EvPrint ("❌ 服务器启动失败: " +:+ exn_str e)) (fst (main h rt g [])))
        /\ (is_KeyboardInterrupt e = false -> is_Exception e = false ->
            snd (main h rt g []) = Raise e)).
Proof.
  intros Henv Hauth Hport.
  unfold main, print, sys_exit_1, try_except, getitem, emit, yields, bind, ret, raise.
  rewrite Henv, Hauth, Hport. simpl.
  split.
  - intros ->. reflexivity.
  - intros e ->. simpl. split; [|split].
    + intros ->. simpl. split; [reflexivity|]. auto 10.
    + intros -> ->. simpl. split; [reflexivity|]. auto 10.
    + intros -> ->. reflexivity.
Qed.

Lemma main_outcome_witness :
  snd (main (Sample.host (Sample.provider Sample.simple_settings Sample.simple_environment))
         (Fixture.runtime (Raise (mkExn OSError "[Errno 98] Address already in use")))
         Sample.globals []) =
  Raise (mkExn (OtherBaseException "SystemExit") "1").
Proof.
  apply (proj1 (proj2 (proj2 (main_outcome
           (Sample.host (Sample.provider Sample.simple_settings Sample.simple_environment))
           (Fixture.runtime (Raise (mkExn OSError "[Errno 98] Address already in use")))
           Sample.globals (PStr "simple") (PBool false) (PInt 8000)
           eq_refl eq_refl eq_refl)
           (mkExn OSError "[Errno 98] Address already in use") eq_refl)));
    reflexivity.
Defined.
